(** * RedditDataCollector (app/main.py): a shallow embedding and its properties

    The collector is a sequential script: it searches a list of subreddits
    for a list of keywords, removes duplicate posts, fetches the comments of
    a list of posts and writes both tables to CSV files.  Its collaborators
    (the PRAW client, [datetime], the file system, the process environment)
    are modelled as explicit inputs; the [print] calls append to a console
    log that is threaded through every method. *)

From Stdlib Require Import ZArith QArith String Ascii List Lia.
From stdpp Require Import base option list strings gmap.

Local Open Scope string_scope.
Local Open Scope list_scope.
Local Open Scope Z_scope.

(** ** Values shared by all methods *)

(** An exception is represented by its message, [str(e)]. *)
Definition exn := string.

(** The outcome of a call that may raise. *)
Inductive result (A : Type) : Type :=
| Ok (a : A)
| Raise (e : exn).
Arguments Ok {A} a.
Arguments Raise {A} e.

(** A naive [datetime.datetime]: its calendar fields. *)
Record datetime := mk_datetime {
  year : Z; month : Z; day : Z;
  hour : Z; minute : Z; second : Z; microsecond : Z
}.

(** Naive datetimes compare as their field tuples, lexicographically. *)
Definition timetuple (d : datetime) : list Z :=
  [year d; month d; day d; hour d; minute d; second d; microsecond d].

Fixpoint lex_compare (a b : list Z) : comparison :=
  match a, b with
  | [], [] => Eq
  | [], _ :: _ => Lt
  | _ :: _, [] => Gt
  | x :: a', y :: b' =>
      match Z.compare x y with
      | Eq => lex_compare a' b'
      | c => c
      end
  end.

(** [a < b] on datetimes. *)
Definition dt_lt (a b : datetime) : bool :=
  match lex_compare (timetuple a) (timetuple b) with
  | Lt => true
  | _ => false
  end.

(** [a > b] on datetimes. *)
Definition dt_gt (a b : datetime) : bool := dt_lt b a.

(** Lines written by [print]; the text is kept as its parts. *)
Inductive line :=
| Searching (subreddit_name : string)
| Keyword (keyword : string)
| ErrorIn (subreddit_name : string) (e : exn)
| TotalUnique (n : nat)
| Collecting (index total : nat)
| ErrorCollecting (post_id : string) (e : exn)
| PostsSaved (filename : string)
| CommentsSaved (filename : string).

(** ** The PRAW objects the collector reads *)

(** A search hit, [praw.models.Submission], with the attributes read by
    [search_posts].  [upvote_ratio] is a float in the source; it is carried
    as a rational and never inspected. *)
Module submission.
Record t := mk {
  id : string;
  title : string;
  author : option string;
  created_utc : Z;
  score : Z;
  upvote_ratio : Q;
  num_comments : Z;
  url : string;
  selftext : string;
  link_flair_text : option string;
  is_self : bool;
  permalink : string
}.
End submission.

(** A [praw.models.Comment], with the attributes read by [get_comments]. *)
Module comment.
Record t := mk {
  id : string;
  author : option string;
  body : string;
  score : Z;
  created_utc : Z;
  is_submitter : bool;
  permalink : string
}.
End comment.

(** A comment tree as fetched: a genuine comment with its replies, or a
    [MoreComments] placeholder standing for comments that were not sent;
    [hidden] is what expanding the placeholder would fetch. *)
#[local] Unset Elimination Schemes.
Inductive node :=
| Comment (c : comment.t) (replies : list node)
| MoreComments (hidden : list node).
#[local] Set Elimination Schemes.

(** *** The comment forest

    [CommentForest.replace_more(limit=0)], the call at line 127.  PRAW
    documents the argument as the number of placeholders to replace, each
    replacement costing a request, with [None] for no bound and [0] to
    remove every [MoreComments] instance without a request: with [limit=0]
    each placeholder, at any depth, is taken out of the list that holds it
    and nothing is fetched. *)
Fixpoint remove_more (n : node) : list node :=
  match n with
  | Comment c replies => [Comment c (flat_map remove_more replies)]
  | MoreComments _ => []
  end.

Definition replace_more_0 (forest : list node) : list node :=
  flat_map remove_more forest.

(** [comment.replies] where the node has them. *)
Definition replies_of (n : node) : list node :=
  match n with
  | Comment _ replies => replies
  | MoreComments _ => []
  end.

(** Number of nodes present in a forest (those behind a placeholder are
    not present). *)
Fixpoint node_size (n : node) : nat :=
  match n with
  | Comment _ replies => S (list_sum (map node_size replies))
  | MoreComments _ => 1
  end.

Definition forest_size (forest : list node) : nat :=
  list_sum (map node_size forest).

(** [CommentForest.list()]: the queue loop of PRAW, which pops the first
    element, records it and extends the queue with its replies, so the
    result is in breadth-first order.  The [while queue] loop runs once
    per node present; [fuel] bounds its turns. *)
Fixpoint list_loop (fuel : nat) (queue comments : list node) : list node :=
  match fuel with
  | O => comments
  | S fuel' =>
      match queue with
      | [] => comments
      | c :: queue' => list_loop fuel' (queue' ++ replies_of c) (comments ++ [c])
      end
  end.

Definition forest_list (forest : list node) : list node :=
  list_loop (forest_size forest) forest [].

(** A listing generator: the submissions it yields and, when iteration
    ends with an exception instead of exhaustion, that exception. *)
Definition listing := (list submission.t * option exn)%type.

(** The remote service as seen through [self.reddit]. *)
Record Reddit := mk_Reddit {
  (** [reddit.subreddit(name)] *)
  reddit_subreddit : string -> result string;
  (** [subreddit.search(keyword, limit=, sort=, time_filter=)] *)
  subreddit_search : string -> string -> Z -> string -> string -> listing;
  (** [reddit.submission(id=post_id).comments], the first access of which
      fetches the tree *)
  submission_comments : string -> result (list node)
}.

(** ** The rows of the two tables *)

(** [str(x)] of an author attribute: [None] prints as the word. *)
Definition str_author (a : option string) : string :=
  match a with
  | Some name => name
  | None => "None"
  end.

Module post.
Record t := mk {
  subreddit : string;
  search_keyword : string;
  post_id : string;
  title : string;
  author : string;
  created_utc : datetime;
  score : Z;
  upvote_ratio : Q;
  num_comments : Z;
  url : string;
  selftext : string;
  link_flair_text : option string;
  is_self : bool;
  permalink : string
}.
End post.

Module comment_row.
Record t := mk {
  post_id : string;
  comment_id : string;
  author : string;
  body : string;
  score : Z;
  created_utc : datetime;
  is_submitter : bool;
  permalink : string
}.
End comment_row.

(** A [DataFrame] built from a list of dicts: its rows, in order. *)
Definition DataFrame (row : Type) := list row.

(** ** search_posts *)

Section Collector.

(** [datetime.fromtimestamp]: conversion of epoch seconds to a naive
    local datetime, which depends on the time zone of the process. *)
Variable fromtimestamp : Z -> datetime.

Variable reddit : Reddit.

(** The dict appended at lines 73-88. *)
Definition post_of (subreddit_name keyword : string)
    (s : submission.t) (post_date : datetime) : post.t :=
  {| post.subreddit := subreddit_name;
     post.search_keyword := keyword;
     post.post_id := submission.id s;
     post.title := submission.title s;
     post.author := str_author (submission.author s);
     post.created_utc := post_date;
     post.score := submission.score s;
     post.upvote_ratio := submission.upvote_ratio s;
     post.num_comments := submission.num_comments s;
     post.url := submission.url s;
     post.selftext := submission.selftext s;
     post.link_flair_text := submission.link_flair_text s;
     post.is_self := submission.is_self s;
     post.permalink := "https://reddit.com" +:+ submission.permalink s |}.

(** [start_date and post_date < start_date]: a datetime is always truthy,
    so the test is false exactly when no bound is given or the bound is
    not crossed. *)
Definition before_start (start_date : option datetime) (post_date : datetime) : bool :=
  match start_date with
  | Some s => dt_lt post_date s
  | None => false
  end.

Definition after_end (end_date : option datetime) (post_date : datetime) : bool :=
  match end_date with
  | Some e => dt_gt post_date e
  | None => false
  end.

(** Body of the innermost loop (lines 65-88) for one submission. *)
Definition visit_submission (subreddit_name keyword : string)
    (start_date end_date : option datetime)
    (all_results : list post.t) (s : submission.t) : list post.t :=
  let post_date := fromtimestamp (submission.created_utc s) in
  if before_start start_date post_date then all_results
  else if after_end end_date post_date then all_results
  else all_results ++ [post_of subreddit_name keyword s post_date].

(** State of [search_posts] while the loops run. *)
Record search_state := mk_search_state {
  all_results : list post.t;
  search_out : list line
}.

Definition search_print (l : line) (st : search_state) : search_state :=
  {| all_results := all_results st; search_out := search_out st ++ [l] |}.

(** [for keyword in keywords] (lines 55-88).  The result carries the
    exception that left the loop, if any; rows appended before it stay
    in [all_results]. *)
Fixpoint for_keyword (sr subreddit_name : string) (keywords : list string)
    (start_date end_date : option datetime) (limit : Z) (sort time_filter : string)
    (st : search_state) : search_state * option exn :=
  match keywords with
  | [] => (st, None)
  | keyword :: rest =>
      let st1 := search_print (Keyword keyword) st in
      let '(yielded, exc) := subreddit_search reddit sr keyword limit sort time_filter in
      let st2 :=
        {| all_results :=
             fold_left (visit_submission subreddit_name keyword start_date end_date)
                       yielded (all_results st1);
           search_out := search_out st1 |} in
      match exc with
      | Some e => (st2, Some e)
      | None => for_keyword sr subreddit_name rest start_date end_date limit sort time_filter st2
      end
  end.

(** One turn of [for subreddit_name in subreddits] (lines 50-92):
    the [try] block and its handler. *)
Definition visit_subreddit (subreddit_name : string) (keywords : list string)
    (start_date end_date : option datetime) (limit : Z) (sort time_filter : string)
    (st : search_state) : search_state :=
  let st1 := search_print (Searching subreddit_name) st in
  match reddit_subreddit reddit subreddit_name with
  | Raise e => search_print (ErrorIn subreddit_name e) st1
  | Ok sr =>
      match for_keyword sr subreddit_name keywords start_date end_date limit sort time_filter st1 with
      | (st2, None) => st2
      | (st2, Some e) => search_print (ErrorIn subreddit_name e) st2
      end
  end.

Definition for_subreddit (subreddits keywords : list string)
    (start_date end_date : option datetime) (limit : Z) (sort time_filter : string)
    (st : search_state) : search_state :=
  fold_left (fun st subreddit_name =>
               visit_subreddit subreddit_name keywords start_date end_date limit sort time_filter st)
            subreddits st.

(** [df.drop_duplicates(subset=['post_id'], keep='first')]: a row is kept
    when its [post_id] has not been seen in an earlier row. *)
Fixpoint drop_duplicates_from (seen : gset string) (df : DataFrame post.t) : DataFrame post.t :=
  match df with
  | [] => []
  | r :: rest =>
      if decide (post.post_id r ∈ seen) then drop_duplicates_from seen rest
      else r :: drop_duplicates_from ({[post.post_id r]} ∪ seen) rest
  end.

Definition drop_duplicates (df : DataFrame post.t) : DataFrame post.t :=
  drop_duplicates_from ∅ df.

(** [search_posts]: the returned table and the console output. *)
Definition search_posts (subreddits keywords : list string)
    (start_date end_date : option datetime) (limit : Z) (sort time_filter : string)
    : DataFrame post.t * list line :=
  let st := for_subreddit subreddits keywords start_date end_date limit sort time_filter
              {| all_results := []; search_out := [] |} in
  let df := all_results st in
  if (0 <? length df)%nat
  then let df' := drop_duplicates df in
       (df', search_out st ++ [TotalUnique (length df')])
  else (df, search_out st).

(** ** get_comments *)

(** The dict appended at lines 136-145. *)
Definition comment_row_of (post_id : string) (c : comment.t) : comment_row.t :=
  {| comment_row.post_id := post_id;
     comment_row.comment_id := comment.id c;
     comment_row.author := str_author (comment.author c);
     comment_row.body := comment.body c;
     comment_row.score := comment.score c;
     comment_row.created_utc := fromtimestamp (comment.created_utc c);
     comment_row.is_submitter := comment.is_submitter c;
     comment_row.permalink := "https://reddit.com" +:+ comment.permalink c |}.

(** [limit and len(all_comments) >= limit]: [None] and [0] are falsy. *)
Definition limit_reached (limit : option Z) (all_comments : list comment_row.t) : bool :=
  match limit with
  | None => false
  | Some n => if n =? 0 then false else n <=? Z.of_nat (length all_comments)
  end.

(** [for comment in comments] (lines 134-148); [break] leaves this loop
    and only this loop. *)
Fixpoint for_comment (post_id : string) (limit : option Z)
    (comments : list node) (all_comments : list comment_row.t) : list comment_row.t :=
  match comments with
  | [] => all_comments
  | Comment c _ :: rest =>
      let all_comments' := all_comments ++ [comment_row_of post_id c] in
      if limit_reached limit all_comments' then all_comments'
      else for_comment post_id limit rest all_comments'
  | MoreComments _ :: rest => for_comment post_id limit rest all_comments
  end.

Record comments_state := mk_comments_state {
  all_comments : list comment_row.t;
  comments_out : list line
}.

Definition comments_print (l : line) (st : comments_state) : comments_state :=
  {| all_comments := all_comments st; comments_out := comments_out st ++ [l] |}.

(** One turn of [for idx, post_id in enumerate(post_ids)] (lines 123-152). *)
Definition visit_post (total : nat) (top_level_only : bool) (limit : option Z)
    (idx : nat) (post_id : string) (st : comments_state) : comments_state :=
  let st1 := comments_print (Collecting (idx + 1) total) st in
  match submission_comments reddit post_id with
  | Raise e => comments_print (ErrorCollecting post_id e) st1
  | Ok forest =>
      let forest' := replace_more_0 forest in
      let comments := if top_level_only then forest' else forest_list forest' in
      {| all_comments := for_comment post_id limit comments (all_comments st1);
         comments_out := comments_out st1 |}
  end.

Fixpoint for_post (total : nat) (top_level_only : bool) (limit : option Z)
    (idx : nat) (post_ids : list string) (st : comments_state) : comments_state :=
  match post_ids with
  | [] => st
  | post_id :: rest =>
      for_post total top_level_only limit (S idx) rest
               (visit_post total top_level_only limit idx post_id st)
  end.

(** [get_comments]: the returned table and the console output. *)
Definition get_comments (post_ids : list string) (top_level_only : bool)
    (limit : option Z) : DataFrame comment_row.t * list line :=
  let st := for_post (length post_ids) top_level_only limit 0 post_ids
              {| all_comments := []; comments_out := [] |} in
  (all_comments st, comments_out st).

End Collector.

(** ** save_data *)

(** *** [strftime] *)

(** The character of a decimal digit. *)
Definition digit_char (n : Z) : ascii := ascii_of_nat (48 + Z.to_nat n).

(** Decimal numeral of a natural number, most significant digit first.
    A number has no more decimal digits than binary ones, which bounds
    the loop. *)
Fixpoint decimal_loop (fuel : nat) (n : Z) (acc : string) : string :=
  match fuel with
  | O => acc
  | S fuel' =>
      let acc' := String (digit_char (n mod 10)) acc in
      if n / 10 =? 0 then acc' else decimal_loop fuel' (n / 10) acc'
  end.

Definition decimal (n : Z) : string :=
  decimal_loop (S (Z.to_nat (Z.log2 n))) n "".

(** [s.zfill(width)] *)
Definition zfill (width : nat) (s : string) : string :=
  string_of_list_ascii (repeat "0"%char (width - String.length s)) +:+ s.

(** The conversions used by the format of line 158.  [%Y] is the year as
    the C library prints it, a plain decimal; the other five are padded
    to two digits. *)
Definition directive (d : datetime) (c : ascii) : string :=
  if Ascii.eqb c "Y" then decimal (year d)
  else if Ascii.eqb c "m" then zfill 2 (decimal (month d))
  else if Ascii.eqb c "d" then zfill 2 (decimal (day d))
  else if Ascii.eqb c "H" then zfill 2 (decimal (hour d))
  else if Ascii.eqb c "M" then zfill 2 (decimal (minute d))
  else if Ascii.eqb c "S" then zfill 2 (decimal (second d))
  else String "%" (String c "").

Fixpoint strftime (d : datetime) (format : string) : string :=
  match format with
  | "" => ""
  | String c rest =>
      if Ascii.eqb c "%" then
        match rest with
        | "" => String c ""
        | String c' rest' => directive d c' +:+ strftime d rest'
        end
      else String c (strftime d rest)
  end.

Section Exporter.

(** [DataFrame.to_csv(index=False)] for each table: the text written. *)
Variable posts_to_csv : DataFrame post.t -> string.
Variable comments_to_csv : DataFrame comment_row.t -> string.

(** What [save_data] leaves behind: the files (name to content) and
    the console output, with the value it returns. *)
Record saved := mk_saved {
  files : gmap string string;
  save_out : list line;
  returned : string
}.

(** [save_data], with [now] the value of [datetime.now()] and [fs] the
    files present before the call. *)
Definition save_data (now : datetime) (fs : gmap string string)
    (posts_df : DataFrame post.t) (comments_df : option (DataFrame comment_row.t))
    (output_prefix : string) : saved :=
  let timestamp := strftime now "%Y%m%d_%H%M%S" in
  let posts_filename := output_prefix +:+ "_posts_" +:+ timestamp +:+ ".csv" in
  let fs1 := <[posts_filename := posts_to_csv posts_df]> fs in
  let out1 := [PostsSaved posts_filename] in
  match comments_df with
  | Some df =>
      if (0 <? length df)%nat then
        let comments_filename := output_prefix +:+ "_comments_" +:+ timestamp +:+ ".csv" in
        {| files := <[comments_filename := comments_to_csv df]> fs1;
           save_out := out1 ++ [CommentsSaved comments_filename];
           returned := posts_filename |}
      else {| files := fs1; save_out := out1; returned := posts_filename |}
  | None => {| files := fs1; save_out := out1; returned := posts_filename |}
  end.

End Exporter.

(** ** The constructor *)

(** The keyword arguments [praw.Reddit] is called with. *)
Record praw_Reddit := mk_praw_Reddit {
  client_id : option string;
  client_secret : option string;
  user_agent : string
}.

(** [os.getenv(key)] and [os.getenv(key, default)] over the environment
    of the process. *)
Definition getenv (environ : gmap string string) (key : string) : option string :=
  environ !! key.

Definition getenv_default (environ : gmap string string) (key default : string) : string :=
  match environ !! key with
  | Some v => v
  | None => default
  end.

Record RedditDataCollector := mk_RedditDataCollector {
  self_reddit : praw_Reddit
}.

(** [RedditDataCollector.__init__] (lines 13-19). *)
Definition __init__ (environ : gmap string string)
    (client_id client_secret user_agent : option string) : RedditDataCollector :=
  {| self_reddit :=
       {| client_id := getenv environ "REDDIT_CLIENT_ID";
          client_secret := getenv environ "REDDIT_CLIENT_SECRET";
          user_agent := getenv_default environ "REDDIT_USER_AGENT" "reddit-docker-app" |} |}.

(** * What the loops compute

    Closed forms of the state the loops of [search_posts] build, used to
    state and prove the properties below. *)

Section SearchRows.

Variable fromtimestamp : Z -> datetime.
Variable reddit : Reddit.
Variables (keywords : list string) (start_date end_date : option datetime).
Variables (limit : Z) (sort time_filter : string).

(** The date of a submission passes both tests of lines 68-71. *)
Definition in_window (s : submission.t) : bool :=
  let post_date := fromtimestamp (submission.created_utc s) in
  negb (before_start start_date post_date) && negb (after_end end_date post_date).

(** Rows a listing adds, in order. *)
Definition listing_rows (subreddit_name keyword : string)
    (yielded : list submission.t) : list post.t :=
  map (fun s => post_of subreddit_name keyword s (fromtimestamp (submission.created_utc s)))
      (filter (fun s => in_window s = true) yielded).

(** Rows the keyword loop adds for a subreddit: the listings are read in
    order up to the first one that ends with an exception, and that one
    is read up to its exception. *)
Fixpoint keyword_rows (sr subreddit_name : string) (kws : list string) : list post.t :=
  match kws with
  | [] => []
  | keyword :: rest =>
      listing_rows subreddit_name keyword
        (fst (subreddit_search reddit sr keyword limit sort time_filter))
      ++ match snd (subreddit_search reddit sr keyword limit sort time_filter) with
         | Some _ => []
         | None => keyword_rows sr subreddit_name rest
         end
  end.

(** The exception that leaves the keyword loop, if any. *)
Fixpoint keyword_exn (sr : string) (kws : list string) : option exn :=
  match kws with
  | [] => None
  | keyword :: rest =>
      match snd (subreddit_search reddit sr keyword limit sort time_filter) with
      | Some e => Some e
      | None => keyword_exn sr rest
      end
  end.

(** Rows one subreddit adds to [all_results]. *)
Definition subreddit_rows (subreddit_name : string) : list post.t :=
  match reddit_subreddit reddit subreddit_name with
  | Raise _ => []
  | Ok sr => keyword_rows sr subreddit_name keywords
  end.

(** The exception caught by the handler of lines 90-92, if any: the
    search of that subreddit fails. *)
Definition subreddit_exn (subreddit_name : string) : option exn :=
  match reddit_subreddit reddit subreddit_name with
  | Raise e => Some e
  | Ok sr => keyword_exn sr keywords
  end.

(** [all_results] when the loops are over, before duplicates are removed. *)
Definition collected (subreddits : list string) : list post.t :=
  all_results (for_subreddit fromtimestamp reddit subreddits keywords
                 start_date end_date limit sort time_filter
                 {| all_results := []; search_out := [] |}).

(** The loops reach submission [s] in the listing of [keyword] for
    [subreddit_name]: the subreddit is in the list, no listing of an
    earlier keyword of that subreddit ended with an exception, and the
    listing yields [s]. *)
Definition iterated (subreddits : list string) (subreddit_name keyword : string)
    (s : submission.t) : Prop :=
  subreddit_name ∈ subreddits ∧
  ∃ sr before after,
    reddit_subreddit reddit subreddit_name = Ok sr ∧
    keywords = before ++ keyword :: after ∧
    (∀ k, k ∈ before → snd (subreddit_search reddit sr k limit sort time_filter) = None) ∧
    s ∈ fst (subreddit_search reddit sr keyword limit sort time_filter).

(** The bounds form a window: the end is not before the start. *)
Definition window_ok : Prop :=
  match start_date, end_date with
  | Some s, Some e => dt_lt e s = false
  | _, _ => True
  end.

End SearchRows.

(** Closed forms for [get_comments]. *)

(** The comments kept by the [isinstance] test of line 135. *)
Definition genuine (comments : list node) : list comment.t :=
  flat_map (fun n => match n with Comment c _ => [c] | MoreComments _ => [] end) comments.

(** The comments present in a fetched forest, at any depth; those behind
    a placeholder are not present. *)
Fixpoint node_comments (n : node) : list comment.t :=
  match n with
  | Comment c replies => c :: flat_map node_comments replies
  | MoreComments _ => []
  end.

Definition present_comments (forest : list node) : list comment.t :=
  flat_map node_comments forest.

(** The nodes present in a forest, parents before their replies. *)
Fixpoint node_nodes (n : node) : list node :=
  match n with
  | Comment c replies => n :: flat_map node_nodes replies
  | MoreComments _ => [n]
  end.

Definition forest_nodes (forest : list node) : list node :=
  flat_map node_nodes forest.

(** Some placeholder is present in the forest. *)
Fixpoint node_has_more (n : node) : bool :=
  match n with
  | Comment _ replies => existsb node_has_more replies
  | MoreComments _ => true
  end.

Definition forest_has_more (forest : list node) : bool :=
  existsb node_has_more forest.

(** Following the words of the specification ("fully resolve placeholders
    before reading", "expansion depth as unlimited"): the complete
    resolved tree, in which every placeholder, at any depth, has been
    replaced by the comments it stands for. *)
Fixpoint resolve_more (n : node) : list node :=
  match n with
  | Comment c replies => [Comment c (flat_map resolve_more replies)]
  | MoreComments hidden => flat_map resolve_more hidden
  end.

Definition fully_resolved (forest : list node) : list node :=
  flat_map resolve_more forest.

Section CommentRows.

Variable fromtimestamp : Z -> datetime.
Variable reddit : Reddit.
Variables (top_level_only : bool) (limit : option Z).

(** [all_comments] after the turn of the outer loop for one post. *)
Definition post_rows (post_id : string) (acc : list comment_row.t) : list comment_row.t :=
  match submission_comments reddit post_id with
  | Raise _ => acc
  | Ok forest =>
      let forest' := replace_more_0 forest in
      for_comment fromtimestamp post_id limit
        (if top_level_only then forest' else forest_list forest') acc
  end.

(** [all_comments] after the outer loop has run over [post_ids]. *)
Definition posts_rows (post_ids : list string) (acc : list comment_row.t) : list comment_row.t :=
  fold_left (fun acc post_id => post_rows post_id acc) post_ids acc.

(** Rows of all the genuine comments read for a post whose fetch
    succeeds. *)
Definition read_rows (post_id : string) : list comment_row.t :=
  match submission_comments reddit post_id with
  | Raise _ => []
  | Ok forest =>
      let forest' := replace_more_0 forest in
      map (comment_row_of fromtimestamp post_id)
          (genuine (if top_level_only then forest' else forest_list forest'))
  end.

End CommentRows.

(** * A sample service

    Concrete inputs on which the methods are run below. *)

(** [datetime.fromtimestamp] of a process whose zone is UTC, on the
    timestamps of 1 August 2025. *)
Definition fromtimestamp_1aug (t : Z) : datetime :=
  let x := t - 1754006400 in
  mk_datetime 2025 8 1 (x / 3600) (x / 60 mod 60) (x mod 60) 0.

Definition sample_submission (id : string) (created_utc : Z) : submission.t :=
  {| submission.id := id;
     submission.title := "Model update";
     submission.author := None;
     submission.created_utc := created_utc;
     submission.score := 12;
     submission.upvote_ratio := 9 # 10;
     submission.num_comments := 3;
     submission.url := "https://example.org/";
     submission.selftext := "";
     submission.link_flair_text := None;
     submission.is_self := false;
     submission.permalink := "/r/sample/comments/" +:+ id |}.

Definition sample_comment (id : string) : comment.t :=
  {| comment.id := id;
     comment.author := Some "someone";
     comment.body := "text";
     comment.score := 1;
     comment.created_utc := 1754006460;
     comment.is_submitter := false;
     comment.permalink := "/r/sample/comments/p/_/" +:+ id |}.

(** Subreddit [ghost] does not exist: it is opened without a request and
    its first search fails.  In [alpha] both keywords find the
    same post; in [beta] the listing for [y] fails after its first hit;
    in [gamma] the request for [y] fails at once. *)
Definition sample_search (sr keyword : string) : listing :=
  if String.eqb sr "alpha" then
    if String.eqb keyword "x" then ([sample_submission "p1" 1754006400], None)
    else if String.eqb keyword "y" then ([sample_submission "p1" 1754006400], None)
    else ([], None)
  else if String.eqb sr "beta" then
    if String.eqb keyword "x" then ([sample_submission "p2" 1754006401], None)
    else if String.eqb keyword "y" then
      ([sample_submission "p3" 1754006402], Some "received 503 HTTP response")
    else ([], None)
  else if String.eqb sr "gamma" then
    if String.eqb keyword "x" then ([sample_submission "p4" 1754006403], None)
    else ([], Some "received 429 HTTP response")
  else if String.eqb sr "ghost" then ([], Some "Redirect to /subreddits/search")
  else ([], None).

(** Post [p1] has two top-level comments, one of them with a reply; post
    [p2] has one comment and a placeholder hiding another; the comments
    of [gone] cannot be fetched. *)
Definition sample_comments (post_id : string) : result (list node) :=
  if String.eqb post_id "p1" then
    Ok [Comment (sample_comment "c1") [Comment (sample_comment "c3") []];
        Comment (sample_comment "c2") []]
  else if String.eqb post_id "p2" then
    Ok [Comment (sample_comment "c4") [];
        MoreComments [Comment (sample_comment "c5") []]]
  else if String.eqb post_id "gone" then Raise "received 404 HTTP response"
  else Ok [].

Definition sample_reddit : Reddit :=
  {| reddit_subreddit := fun name => Ok name;
     subreddit_search := fun sr keyword _ _ _ => sample_search sr keyword;
     submission_comments := sample_comments |}.

(** * Reading a timestamp back *)

Definition is_digit (c : ascii) : bool :=
  (48 <=? nat_of_ascii c)%nat && (nat_of_ascii c <=? 57)%nat.

(** The number a string of decimal digits denotes. *)
Fixpoint int_of_digits (acc : Z) (s : string) : Z :=
  match s with
  | "" => acc
  | String c rest => int_of_digits (10 * acc + (Z.of_nat (nat_of_ascii c) - 48)) rest
  end.

(** [s] is the numeral of [value] written with exactly [width] decimal
    digits. *)
Definition numeral (width : nat) (value : Z) (s : string) : bool :=
  (String.length s =? width)%nat
  && forallb is_digit (list_ascii_of_string s)
  && (int_of_digits 0 s =? value).

(** The numbers from [lo] on, [n] of them. *)
Definition Z_range (lo : Z) (n : nat) : list Z :=
  map (fun i => lo + Z.of_nat i) (seq 0 n).

(** * main *)

(** What [main] prints: its own lines, and the lines of the methods it
    calls. *)
Inductive console :=
| StartingDataCollection
| CollectingComments
| SavingData
| CollectionSummary
| TotalPosts (n : nat)
| TotalComments (n : nat)
| CollectionComplete
| Printed (l : line).

(** The dict [STUDY_CONFIG] of lines 187-224. *)
Record study := mk_study {
  cfg_subreddits : list string;
  cfg_keywords : list string;
  cfg_start_date : option datetime;
  cfg_end_date : option datetime;
  cfg_limit : Z;
  cfg_sort : string;
  cfg_time_filter : string;
  cfg_collect_comments : bool;
  cfg_top_level_only : bool;
  cfg_output_prefix : string
}.

Definition STUDY_CONFIG : study :=
  {| cfg_subreddits := ["Replika"; "MyBoyfriendIsAI"; "CharacterAI"; "ChatGPT"; "singularity"];
     cfg_keywords := ["AI boyfriend"; "AI girlfriend"; "AI partner"; "lobotomized";
                      "nerfed"; "personality shift"; "GPT-5"; "model update"];
     cfg_start_date := Some (mk_datetime 2025 8 1 0 0 0 0);
     cfg_end_date := Some (mk_datetime 2025 9 30 0 0 0 0);
     cfg_limit := 100;
     cfg_sort := "relevance";
     cfg_time_filter := "all";
     cfg_collect_comments := true;
     cfg_top_level_only := true;
     cfg_output_prefix := "ai_boyfriend_study" |}.

(** What a run leaves behind. *)
Record outcome := mk_outcome {
  run_collector : RedditDataCollector;
  run_posts : DataFrame post.t;
  run_comments : option (DataFrame comment_row.t);
  run_files : gmap string string;
  run_out : list console
}.

Section Main.

Variable fromtimestamp : Z -> datetime.
(** The service as it answers a session opened with given credentials. *)
Variable service : praw_Reddit -> Reddit.
Variable posts_to_csv : DataFrame post.t -> string.
Variable comments_to_csv : DataFrame comment_row.t -> string.

(** The body of [main] (lines 180-267) over the study parameters it
    reads, with [environ] the environment of the process, [now] the
    moment of the export and [fs] the files present at the start. *)
Definition main_body (cfg : study) (environ : gmap string string)
    (now : datetime) (fs : gmap string string) : outcome :=
  let CONFIG_client_id := getenv environ "REDDIT_CLIENT_ID" in
  let CONFIG_client_secret := getenv environ "REDDIT_CLIENT_SECRET" in
  let CONFIG_user_agent := getenv_default environ "REDDIT_USER_AGENT" "reddit-docker-app" in
  let collector :=
    __init__ environ CONFIG_client_id CONFIG_client_secret (Some CONFIG_user_agent) in
  let reddit := service (self_reddit collector) in
  let '(posts_df, search_lines) :=
    search_posts fromtimestamp reddit
      (cfg_subreddits cfg) (cfg_keywords cfg)
      (cfg_start_date cfg) (cfg_end_date cfg)
      (cfg_limit cfg) (cfg_sort cfg) (cfg_time_filter cfg) in
  let '(comments_df, comment_lines) :=
    if cfg_collect_comments cfg && (0 <? length posts_df)%nat then
      let '(df, lines) :=
        get_comments fromtimestamp reddit (map post.post_id posts_df)
          (cfg_top_level_only cfg) None in
      (Some df, CollectingComments :: map Printed lines)
    else (None, []) in
  let saved :=
    save_data posts_to_csv comments_to_csv now fs posts_df comments_df
      (cfg_output_prefix cfg) in
  {| run_collector := collector;
     run_posts := posts_df;
     run_comments := comments_df;
     run_files := files saved;
     run_out :=
       [StartingDataCollection] ++ map Printed search_lines ++ comment_lines
       ++ [SavingData] ++ map Printed (save_out saved)
       ++ [CollectionSummary; TotalPosts (length posts_df)]
       ++ match comments_df with
          | Some df => [TotalComments (length df)]
          | None => []
          end
       ++ [CollectionComplete] |}.

Definition main (environ : gmap string string) (now : datetime)
    (fs : gmap string string) : outcome :=
  main_body STUDY_CONFIG environ now fs.

End Main.

(** * Reading a file name back *)

(** The first [n] characters of a string, and the rest. *)
Fixpoint string_take (n : nat) (s : string) : string :=
  match n, s with
  | S n', String c rest => String c (string_take n' rest)
  | _, _ => ""
  end.

Fixpoint string_drop (n : nat) (s : string) : string :=
  match n, s with
  | S n', String c rest => string_drop n' rest
  | _, _ => s
  end.

(** The six numbers of a timestamp of the shape [YYYYMMDD_HHMMSS]. *)
Definition timestamp_fields (timestamp : string) : list Z :=
  [int_of_digits 0 (string_take 4 timestamp);
   int_of_digits 0 (string_take 2 (string_drop 4 timestamp));
   int_of_digits 0 (string_take 2 (string_drop 6 timestamp));
   int_of_digits 0 (string_take 2 (string_drop 9 timestamp));
   int_of_digits 0 (string_take 2 (string_drop 11 timestamp));
   int_of_digits 0 (string_take 2 (string_drop 13 timestamp))].

(** A moment [datetime.now()] can return, in a year of four digits. *)
Definition valid_now (now : datetime) : Prop :=
  1000 ≤ year now ≤ 9999 ∧ 1 ≤ month now ≤ 12 ∧ 1 ≤ day now ≤ 31 ∧
  0 ≤ hour now ≤ 23 ∧ 0 ≤ minute now ≤ 59 ∧ 0 ≤ second now ≤ 59.

(** The lines of the form [Collecting i/n] and [Searching r/name] in an
    output. *)
Definition collecting_lines (out : list line) : list (nat * nat) :=
  flat_map (fun l => match l with Collecting i n => [(i, n)] | _ => [] end) out.

Definition searching_lines (out : list line) : list string :=
  flat_map (fun l => match l with Searching name => [name] | _ => [] end) out.

(** A service that serves the sample data whatever the credentials. *)
Definition sample_service (_ : praw_Reddit) : Reddit := sample_reddit.

(** * What the search prints *)

Section SearchLog.

Variable reddit : Reddit.
Variables (keywords : list string) (limit : Z) (sort time_filter : string).

(** Lines of the keyword loop: one per keyword searched, up to and
    including the one whose listing raises. *)
Fixpoint keyword_log (sr : string) (kws : list string) : list line :=
  match kws with
  | [] => []
  | keyword :: rest =>
      Keyword keyword
      :: match snd (subreddit_search reddit sr keyword limit sort time_filter) with
         | Some _ => []
         | None => keyword_log sr rest
         end
  end.

(** Lines of one turn of the subreddit loop. *)
Definition subreddit_log (subreddit_name : string) : list line :=
  Searching subreddit_name
  :: match reddit_subreddit reddit subreddit_name with
     | Raise e => [ErrorIn subreddit_name e]
     | Ok sr =>
         keyword_log sr keywords
         ++ match keyword_exn reddit limit sort time_filter sr keywords with
            | Some e => [ErrorIn subreddit_name e]
            | None => []
            end
     end.

End SearchLog.

(** * Sample runs of main *)

(** A study over the sample service. *)
Definition sample_study : study :=
  {| cfg_subreddits := ["alpha"; "beta"];
     cfg_keywords := ["x"; "y"];
     cfg_start_date := None;
     cfg_end_date := None;
     cfg_limit := 100;
     cfg_sort := "relevance";
     cfg_time_filter := "all";
     cfg_collect_comments := true;
     cfg_top_level_only := true;
     cfg_output_prefix := "sample" |}.

(** The sample service with the comments of every post out of reach. *)
Definition sample_service_no_comments (_ : praw_Reddit) : Reddit :=
  {| reddit_subreddit := reddit_subreddit sample_reddit;
     subreddit_search := subreddit_search sample_reddit;
     submission_comments := fun _ => Raise "received 403 HTTP response" |}.

(** [datetime.fromtimestamp] of a process whose zone is UTC, on the
    timestamps of 30 September 2025. *)
Definition fromtimestamp_30sep (t : Z) : datetime :=
  let x := t - 1759190400 in
  mk_datetime 2025 9 30 (x / 3600) (x / 60 mod 60) (x mod 60) 0.

(** A service on which the study of [main] finds one post, created at
    the first instant of 30 September 2025. *)
Definition study_service (_ : praw_Reddit) : Reddit :=
  {| reddit_subreddit := fun name => Ok name;
     subreddit_search := fun sr keyword _ _ _ =>
       if String.eqb sr "Replika" && String.eqb keyword "AI partner"
       then ([sample_submission "p1" 1759190400], None)
       else ([], None);
     submission_comments := sample_comments |}.

(** * Properties *)

(** ** Datetime order *)

Lemma lex_compare_refl a : lex_compare a a = Eq.
Proof. induction a as [|x a IH]; simpl; [done|]. by rewrite Z.compare_refl. Qed.

Lemma dt_lt_irrefl d : dt_lt d d = false.
Proof. unfold dt_lt. by rewrite lex_compare_refl. Qed.

(** ** Removing duplicates *)

Lemma drop_duplicates_from_elem r seen df :
  r ∈ drop_duplicates_from seen df ↔
  ∃ before after, df = before ++ r :: after ∧ (post.post_id r ∉ seen) ∧
                  (∀ r', r' ∈ before → post.post_id r' ≠ post.post_id r).
Proof.
  revert seen. induction df as [|a df IH]; intros seen; simpl.
  - split; [by intros ?%elem_of_nil|].
    intros (before & after & H & _). by destruct before.
  - destruct (decide (post.post_id a ∈ seen)) as [Hin|Hnin].
    + rewrite IH. split.
      * intros (before & after & -> & Hr & Hb). exists (a :: before), after.
        split_and!; [done|done|]. intros r' [->|?]%elem_of_cons; [congruence|eauto].
      * intros (before & after & Hdf & Hr & Hb).
        destruct before as [|b before]; simplify_eq/=; [done|].
        exists before, after. split_and!; [done|done|].
        intros r' ?. apply Hb. by right.
    + rewrite elem_of_cons, IH. split.
      * intros [->|(before & after & -> & Hr & Hb)].
        { exists [], df. split_and!; [done|done|]. by intros ? ?%elem_of_nil. }
        apply not_elem_of_union in Hr as [Hra%not_elem_of_singleton Hr].
        exists (a :: before), after. split_and!; [done|done|].
        intros r' [->|?]%elem_of_cons; [congruence|eauto].
      * intros (before & after & Hdf & Hr & Hb). destruct before as [|b before]; simplify_eq/=.
        { by left. }
        right. exists before, after. split_and!; [done| |].
        -- assert (post.post_id b ≠ post.post_id r) by (apply Hb; by left).
           apply not_elem_of_union. split; [|done]. apply not_elem_of_singleton. congruence.
        -- intros r' ?. apply Hb. by right.
Qed.

Lemma drop_duplicates_from_NoDup seen df :
  NoDup (map post.post_id (drop_duplicates_from seen df)).
Proof.
  revert seen. induction df as [|a df IH]; intros seen; simpl; [constructor|].
  destruct (decide (post.post_id a ∈ seen)); [done|].
  simpl. constructor; [|done].
  intros (r & Hid & Hr)%list_elem_of_fmap.
  apply drop_duplicates_from_elem in Hr as (_ & _ & _ & Hr & _).
  apply Hr, elem_of_union. left. apply elem_of_singleton. congruence.
Qed.

Lemma drop_duplicates_from_covers r seen df :
  r ∈ df → post.post_id r ∉ seen →
  ∃ r', r' ∈ drop_duplicates_from seen df ∧ post.post_id r' = post.post_id r.
Proof.
  revert seen. induction df as [|a df IH]; intros seen; simpl; [by intros ?%elem_of_nil|].
  intros Hr Hseen. destruct (decide (post.post_id a ∈ seen)) as [Hin|Hnin].
  - apply elem_of_cons in Hr as [->|Hr]; [done|]. by apply IH.
  - destruct (decide (post.post_id a = post.post_id r)) as [Heq|Hne].
    + exists a. split; [by left|done].
    + apply elem_of_cons in Hr as [->|Hr]; [done|].
      destruct (IH ({[post.post_id a]} ∪ seen) Hr) as (r' & ? & ?).
      { apply not_elem_of_union. split; [|done]. apply not_elem_of_singleton. congruence. }
      exists r'. split; [by right|done].
Qed.

Lemma drop_duplicates_subset r df : r ∈ drop_duplicates df → r ∈ df.
Proof.
  intros (before & after & -> & _)%drop_duplicates_from_elem.
  apply elem_of_app. right. by left.
Qed.

(** ** The search loops *)

Section SearchLoops.

Variable fromtimestamp : Z -> datetime.
Variable reddit : Reddit.
Variables (keywords : list string) (start_date end_date : option datetime).
Variables (limit : Z) (sort time_filter : string).

Local Abbreviation visit := (visit_submission fromtimestamp).
Local Abbreviation search sr keyword := (subreddit_search reddit sr keyword limit sort time_filter).
Local Abbreviation lrows := (listing_rows fromtimestamp start_date end_date).
Local Abbreviation krows := (keyword_rows fromtimestamp reddit start_date end_date limit sort time_filter).
Local Abbreviation kexn := (keyword_exn reddit limit sort time_filter).
Local Abbreviation srows := (subreddit_rows fromtimestamp reddit keywords start_date end_date limit sort time_filter).
Local Abbreviation sexn := (subreddit_exn reddit keywords limit sort time_filter).

Lemma fold_visit_submission subreddit_name keyword yielded acc :
  fold_left (visit subreddit_name keyword start_date end_date) yielded acc
  = acc ++ lrows subreddit_name keyword yielded.
Proof.
  revert acc. induction yielded as [|s ys IH]; intros acc; simpl.
  - by rewrite app_nil_r.
  - rewrite IH. unfold listing_rows. rewrite filter_cons.
    unfold visit_submission, in_window.
    destruct (before_start _ _); simpl; [done|].
    destruct (after_end _ _); simpl; [done|].
    by rewrite <- app_assoc.
Qed.

Lemma for_keyword_spec sr subreddit_name kws st :
  let r := for_keyword fromtimestamp reddit sr subreddit_name kws
             start_date end_date limit sort time_filter st in
  all_results (fst r) = all_results st ++ krows sr subreddit_name kws
  ∧ snd r = kexn sr kws
  ∧ ∃ out, search_out (fst r) = search_out st ++ out.
Proof.
  revert st. induction kws as [|k kws IH]; intros st; simpl.
  - rewrite app_nil_r. split_and!; [done|done|]. exists []. by rewrite app_nil_r.
  - destruct (subreddit_search _ _ _ _ _ _) as [ys [e|]]; simpl.
    + rewrite fold_visit_submission, app_nil_r. split_and!; [done|done|by eexists].
    + destruct (IH {| all_results :=
                        fold_left (visit subreddit_name k start_date end_date)
                                  ys (all_results st);
                      search_out := search_out st ++ [Keyword k] |}) as (H1 & H2 & out & H3).
      simpl in H1, H3. split_and!; [|done|].
      * by rewrite H1, fold_visit_submission, <- app_assoc.
      * exists ([Keyword k] ++ out). by rewrite H3, <- app_assoc.
Qed.

Lemma visit_subreddit_rows subreddit_name st :
  all_results (visit_subreddit fromtimestamp reddit subreddit_name keywords
                 start_date end_date limit sort time_filter st)
  = all_results st ++ srows subreddit_name.
Proof.
  unfold visit_subreddit, subreddit_rows.
  destruct (reddit_subreddit reddit subreddit_name) as [sr|e]; simpl.
  - pose proof (for_keyword_spec sr subreddit_name keywords
                  (search_print (Searching subreddit_name) st)) as (H & _ & _).
    destruct (for_keyword _ _ _ _ _ _ _ _ _ _ _) as [st2 [e|]]; simpl in *; done.
  - by rewrite app_nil_r.
Qed.

(** The handler prints the exception, and nothing printed earlier is lost. *)
Lemma visit_subreddit_out subreddit_name st :
  ∃ out, search_out (visit_subreddit fromtimestamp reddit subreddit_name keywords
                       start_date end_date limit sort time_filter st)
         = search_out st ++ out
         ∧ ∀ e, sexn subreddit_name = Some e → ErrorIn subreddit_name e ∈ out.
Proof.
  unfold visit_subreddit, subreddit_exn.
  destruct (reddit_subreddit reddit subreddit_name) as [sr|e]; simpl.
  - pose proof (for_keyword_spec sr subreddit_name keywords
                  (search_print (Searching subreddit_name) st)) as (_ & H & out & Hout).
    destruct (for_keyword _ _ _ _ _ _ _ _ _ _ _) as [st2 [e|]]; simpl in *.
    + exists ([Searching subreddit_name] ++ out ++ [ErrorIn subreddit_name e]).
      split; [rewrite Hout; by rewrite <- !app_assoc|].
      intros e' He'. rewrite <- H in He'. simplify_eq.
      rewrite !elem_of_app. right. right. by left.
    + exists ([Searching subreddit_name] ++ out).
      split; [rewrite Hout; by rewrite <- !app_assoc|].
      intros e' He'. congruence.
  - exists [Searching subreddit_name; ErrorIn subreddit_name e].
    split; [by rewrite <- app_assoc|]. intros e' [= ->]. right. by left.
Qed.

Lemma for_subreddit_rows subreddits st :
  all_results (for_subreddit fromtimestamp reddit subreddits keywords
                 start_date end_date limit sort time_filter st)
  = all_results st ++ flat_map srows subreddits.
Proof.
  unfold for_subreddit. revert st.
  induction subreddits as [|c cs IH]; intros st; simpl.
  - by rewrite app_nil_r.
  - by rewrite IH, visit_subreddit_rows, <- app_assoc.
Qed.

Lemma for_subreddit_out subreddits st :
  ∃ out, search_out (for_subreddit fromtimestamp reddit subreddits keywords
                       start_date end_date limit sort time_filter st)
         = search_out st ++ out
         ∧ ∀ c e, c ∈ subreddits → sexn c = Some e → ErrorIn c e ∈ out.
Proof.
  unfold for_subreddit. revert st.
  induction subreddits as [|c cs IH]; intros st; simpl.
  - exists []. split; [by rewrite app_nil_r|]. by intros ? ? ?%elem_of_nil.
  - destruct (visit_subreddit_out c st) as (out1 & H1 & He1).
    destruct (IH (visit_subreddit fromtimestamp reddit c keywords
                    start_date end_date limit sort time_filter st)) as (out2 & H2 & He2).
    exists (out1 ++ out2). split; [by rewrite H2, H1, <- app_assoc|].
    intros c' e [->|Hc']%elem_of_cons He; apply elem_of_app; eauto.
Qed.

Lemma collected_rows subreddits :
  collected fromtimestamp reddit keywords start_date end_date limit sort time_filter subreddits
  = flat_map srows subreddits.
Proof. unfold collected. by rewrite for_subreddit_rows. Qed.

Lemma search_posts_table subreddits :
  fst (search_posts fromtimestamp reddit subreddits keywords
         start_date end_date limit sort time_filter)
  = drop_duplicates
      (collected fromtimestamp reddit keywords start_date end_date limit sort time_filter subreddits).
Proof.
  unfold search_posts, collected.
  destruct (all_results _) as [|r df]; simpl; done.
Qed.

Lemma search_posts_out subreddits c e :
  c ∈ subreddits → sexn c = Some e →
  ErrorIn c e ∈ snd (search_posts fromtimestamp reddit subreddits keywords
                       start_date end_date limit sort time_filter).
Proof.
  intros Hc He. unfold search_posts.
  destruct (for_subreddit_out subreddits {| all_results := []; search_out := [] |})
    as (out & Hout & Hin).
  destruct (0 <? _)%nat; simpl; rewrite Hout; simpl; rewrite ?elem_of_app; eauto.
Qed.

Lemma listing_rows_elem r subreddit_name keyword yielded :
  r ∈ lrows subreddit_name keyword yielded ↔
  ∃ s, s ∈ yielded ∧ in_window fromtimestamp start_date end_date s = true ∧
       r = post_of subreddit_name keyword s (fromtimestamp (submission.created_utc s)).
Proof.
  unfold listing_rows. rewrite list_elem_of_fmap. split.
  - intros (s & -> & [? ?]%list_elem_of_filter). eauto.
  - intros (s & ? & ? & ->). exists s. split; [done|]. by apply list_elem_of_filter.
Qed.

Lemma keyword_rows_elem r sr subreddit_name kws :
  r ∈ krows sr subreddit_name kws ↔
  ∃ before k after s,
    kws = before ++ k :: after ∧
    (∀ k', k' ∈ before → snd (search sr k') = None) ∧
    s ∈ fst (search sr k) ∧
    in_window fromtimestamp start_date end_date s = true ∧
    r = post_of subreddit_name k s (fromtimestamp (submission.created_utc s)).
Proof.
  induction kws as [|k kws IH]; simpl.
  - split; [by intros ?%elem_of_nil|]. intros (before & ? & ? & ? & H & _). by destruct before.
  - rewrite elem_of_app, listing_rows_elem. split.
    + intros [(s & ? & ? & ->)|Hr].
      * exists [], k, kws, s. split_and!; try done. by intros ? ?%elem_of_nil.
      * destruct (snd (search sr k)) as [e|] eqn:Hk; [by apply elem_of_nil in Hr|].
        apply IH in Hr as (before & k' & after & s & -> & Hb & ? & ? & ->).
        exists (k :: before), k', after, s. split_and!; try done.
        intros k0 [->|?]%elem_of_cons; eauto.
    + intros (before & k' & after & s & Hkws & Hb & Hs & Hw & ->).
      destruct before as [|k0 before]; simplify_eq/=.
      * left. eauto.
      * right. rewrite (Hb k0) by (by left).
        apply IH. exists before, k', after, s. split_and!; try done.
        intros k1 ?. apply Hb. by right.
Qed.

Lemma collected_elem r subreddits :
  r ∈ collected fromtimestamp reddit keywords start_date end_date limit sort time_filter subreddits ↔
  ∃ c k s, iterated reddit keywords limit sort time_filter subreddits c k s ∧
           in_window fromtimestamp start_date end_date s = true ∧
           r = post_of c k s (fromtimestamp (submission.created_utc s)).
Proof.
  rewrite collected_rows, list_elem_of_In, in_flat_map. unfold iterated, subreddit_rows. split.
  - intros (c & Hc%list_elem_of_In & Hr%list_elem_of_In).
    destruct (reddit_subreddit reddit c) as [sr|e] eqn:Hsr; [|by apply elem_of_nil in Hr].
    apply keyword_rows_elem in Hr as (before & k & after & s & ? & ? & ? & ? & ->).
    exists c, k, s. split_and!; try done. by exists sr, before, after.
  - intros (c & k & s & (Hc & sr & before & after & Hsr & ? & ? & ?) & ? & ->).
    exists c. split; [by apply list_elem_of_In|]. rewrite Hsr.
    apply list_elem_of_In, keyword_rows_elem. by exists before, k, after, s.
Qed.

End SearchLoops.

(** ** The comment forest *)

Lemma node_forest_ind (P : node → Prop) :
  (∀ c replies, Forall P replies → P (Comment c replies)) →
  (∀ hidden, Forall P hidden → P (MoreComments hidden)) →
  ∀ n, P n.
Proof.
  intros HC HM. fix IH 1. intros [c replies|hidden].
  - apply HC. induction replies as [|r rs IHrs]; constructor; [apply IH|apply IHrs].
  - apply HM. induction hidden as [|r rs IHrs]; constructor; [apply IH|apply IHrs].
Qed.

Lemma flat_map_flat_map {A B C} (f : A → list B) (g : B → list C) l :
  flat_map g (flat_map f l) = flat_map (λ x, flat_map g (f x)) l.
Proof. induction l as [|x l IH]; simpl; [done|]. by rewrite flat_map_app, IH. Qed.

Lemma flat_map_Forall_ext {A B} (f g : A → list B) l :
  Forall (λ x, f x = g x) l → flat_map f l = flat_map g l.
Proof. induction 1 as [|x l Hx _ IH]; simpl; [done|]. by rewrite Hx, IH. Qed.

Lemma flat_map_singleton {A} (l : list A) : flat_map (λ x, [x]) l = l.
Proof. induction l as [|x l IH]; simpl; [done|]. by rewrite IH. Qed.

(** After [replace_more(limit=0)] no placeholder is left, at any depth. *)
Lemma remove_more_no_more n : forest_has_more (remove_more n) = false.
Proof.
  induction n as [c replies IH|hidden _] using node_forest_ind; simpl; [|done].
  rewrite orb_false_r. induction IH as [|r rs Hr _ IHrs]; simpl; [done|].
  unfold forest_has_more in Hr. by rewrite existsb_app, Hr, IHrs.
Qed.

Lemma replace_more_0_no_more forest : forest_has_more (replace_more_0 forest) = false.
Proof.
  unfold replace_more_0, forest_has_more.
  induction forest as [|n ns IH]; simpl; [done|].
  rewrite existsb_app, IH, orb_false_r. apply remove_more_no_more.
Qed.

(** A forest without placeholders is left as it is, by removal and by
    resolution alike. *)
Lemma remove_more_id n : node_has_more n = false → remove_more n = [n].
Proof.
  induction n as [c replies IH|hidden _] using node_forest_ind; simpl; [|done].
  intros Hno. do 2 f_equal.
  rewrite <- (flat_map_singleton replies) at 2. apply flat_map_Forall_ext.
  induction IH as [|r rs Hr _ IHrs]; simpl in *; [constructor|].
  apply orb_false_iff in Hno as [? ?]. constructor; eauto.
Qed.

Lemma resolve_more_id n : node_has_more n = false → resolve_more n = [n].
Proof.
  induction n as [c replies IH|hidden _] using node_forest_ind; simpl; [|done].
  intros Hno. do 2 f_equal.
  rewrite <- (flat_map_singleton replies) at 2. apply flat_map_Forall_ext.
  induction IH as [|r rs Hr _ IHrs]; simpl in *; [constructor|].
  apply orb_false_iff in Hno as [? ?]. constructor; eauto.
Qed.

Lemma replace_more_0_id forest :
  forest_has_more forest = false → replace_more_0 forest = forest.
Proof.
  unfold replace_more_0, forest_has_more.
  induction forest as [|n ns IH]; simpl; [done|].
  intros [? ?]%orb_false_iff. by rewrite remove_more_id, IH.
Qed.

Lemma fully_resolved_id forest :
  forest_has_more forest = false → fully_resolved forest = forest.
Proof.
  unfold fully_resolved, forest_has_more.
  induction forest as [|n ns IH]; simpl; [done|].
  intros [? ?]%orb_false_iff. by rewrite resolve_more_id, IH.
Qed.

(** Removing the placeholders removes no comment that is present. *)
Lemma node_comments_remove_more n :
  present_comments (remove_more n) = node_comments n.
Proof.
  unfold present_comments.
  induction n as [c replies IH|hidden _] using node_forest_ind; simpl; [|done].
  rewrite app_nil_r. f_equal. rewrite flat_map_flat_map. by apply flat_map_Forall_ext.
Qed.

Lemma present_comments_replace_more_0 forest :
  present_comments (replace_more_0 forest) = present_comments forest.
Proof.
  unfold present_comments, replace_more_0. rewrite flat_map_flat_map.
  apply flat_map_Forall_ext, Forall_forall. intros n _. apply node_comments_remove_more.
Qed.

Lemma genuine_replace_more_0 forest :
  genuine (replace_more_0 forest)
  = flat_map (λ n, match n with
                   | Comment c _ => [c]
                   | MoreComments _ => []
                   end) forest.
Proof.
  unfold genuine, replace_more_0. rewrite flat_map_flat_map.
  apply flat_map_Forall_ext, Forall_forall. by intros [c rs|h] _.
Qed.

Lemma genuine_node_nodes n : genuine (node_nodes n) = node_comments n.
Proof.
  unfold genuine. induction n as [c replies IH|hidden _] using node_forest_ind; simpl; [|done].
  f_equal. rewrite flat_map_flat_map. by apply flat_map_Forall_ext.
Qed.

Lemma genuine_forest_nodes forest : genuine (forest_nodes forest) = present_comments forest.
Proof.
  unfold forest_nodes, present_comments, genuine at 1. rewrite flat_map_flat_map.
  apply flat_map_Forall_ext, Forall_forall. intros n _. apply genuine_node_nodes.
Qed.

(** *** The flattened view *)

Lemma node_size_replies n : node_size n = S (forest_size (replies_of n)).
Proof. by destruct n. Qed.

Lemma node_nodes_replies n : node_nodes n = n :: forest_nodes (replies_of n).
Proof. by destruct n. Qed.

Lemma forest_size_app q1 q2 : forest_size (q1 ++ q2) = (forest_size q1 + forest_size q2)%nat.
Proof. unfold forest_size. by rewrite map_app, list_sum_app. Qed.

(** The queue loop has fuel to empty its queue, and then it has listed
    each node present exactly once. *)
Lemma list_loop_nodes fuel queue comments :
  (forest_size queue ≤ fuel)%nat →
  list_loop fuel queue comments ≡ₚ comments ++ forest_nodes queue.
Proof.
  revert queue comments. induction fuel as [|fuel IH]; intros queue comments Hfuel.
  - destruct queue as [|c queue]; simpl; [by rewrite app_nil_r|].
    unfold forest_size in Hfuel. simpl in Hfuel. rewrite node_size_replies in Hfuel. lia.
  - destruct queue as [|c queue]; simpl; [by rewrite app_nil_r|].
    rewrite IH.
    + unfold forest_nodes. rewrite flat_map_app, node_nodes_replies, <- app_assoc. simpl.
      apply Permutation_app_head. constructor. apply Permutation_app_comm.
    + rewrite forest_size_app. unfold forest_size in Hfuel |- *. simpl in Hfuel.
      rewrite node_size_replies in Hfuel. unfold forest_size in Hfuel. lia.
Qed.

Lemma forest_list_nodes forest : forest_list forest ≡ₚ forest_nodes forest.
Proof. unfold forest_list. by rewrite list_loop_nodes. Qed.

Lemma genuine_forest_list forest : genuine (forest_list forest) ≡ₚ present_comments forest.
Proof.
  rewrite <- genuine_forest_nodes. unfold genuine.
  apply Permutation_flat_map, forest_list_nodes.
Qed.

Lemma forest_nodes_no_more forest n :
  forest_has_more forest = false → n ∈ forest_nodes forest →
  ∃ c replies, n = Comment c replies.
Proof.
  unfold forest_has_more, forest_nodes. intros Hno Hn.
  apply list_elem_of_In, in_flat_map in Hn as (m & Hm & Hn).
  assert (node_has_more m = false) as Hm'.
  { rewrite <- not_true_iff_false. intros ?. rewrite <- not_true_iff_false in Hno.
    apply Hno, existsb_exists. eauto. }
  clear Hno Hm forest. revert n Hn.
  induction m as [c replies IH|hidden _] using node_forest_ind; [|done]. simpl in *.
  intros n [<-|Hn]; [eauto|].
  apply in_flat_map in Hn as (r & Hr & Hn).
  rewrite Forall_forall in IH. apply (IH r); [by apply list_elem_of_In| |done].
  rewrite <- not_true_iff_false. intros ?. rewrite <- not_true_iff_false in Hm'.
  apply Hm', existsb_exists. eauto.
Qed.

(** ** The comment loops *)

Section CommentLoops.

Variable fromtimestamp : Z -> datetime.
Variable reddit : Reddit.
Variables (top_level_only : bool) (limit : option Z).

Local Abbreviation row := (comment_row_of fromtimestamp).
Local Abbreviation prows := (post_rows fromtimestamp reddit top_level_only limit).
Local Abbreviation psrows := (posts_rows fromtimestamp reddit top_level_only limit).

(** The inner loop appends rows of the post at hand, for a run of its
    genuine comments from the first one on. *)
Lemma for_comment_take post_id comments acc :
  ∃ k, for_comment fromtimestamp post_id limit comments acc
       = acc ++ take k (map (row post_id) (genuine comments)).
Proof.
  revert acc. induction comments as [|[c rs|h] comments IH]; intros acc; simpl.
  - exists 0%nat. by rewrite app_nil_r.
  - destruct (limit_reached _ _).
    + by exists 1%nat.
    + destruct (IH (acc ++ [row post_id c])) as [k ->].
      exists (S k). by rewrite <- app_assoc.
  - apply IH.
Qed.

Lemma for_comment_elem post_id comments acc r :
  r ∈ for_comment fromtimestamp post_id limit comments acc →
  r ∈ acc ∨ comment_row.post_id r = post_id.
Proof.
  destruct (for_comment_take post_id comments acc) as [k ->].
  intros [?|Hr]%elem_of_app; [by left|right].
  apply subseteq_take, list_elem_of_fmap in Hr as (c & -> & _). done.
Qed.

Lemma visit_post_rows total idx post_id st :
  all_comments (visit_post fromtimestamp reddit total top_level_only limit idx post_id st)
  = prows post_id (all_comments st).
Proof.
  unfold visit_post, post_rows. by destruct (submission_comments reddit post_id).
Qed.

Lemma for_post_rows total idx post_ids st :
  all_comments (for_post fromtimestamp reddit total top_level_only limit idx post_ids st)
  = psrows post_ids (all_comments st).
Proof.
  unfold posts_rows. revert idx st.
  induction post_ids as [|p ps IH]; intros idx st; simpl; [done|].
  by rewrite IH, visit_post_rows.
Qed.


(** A post whose fetch raises leaves [all_comments] as it was. *)
Lemma post_rows_raise post_id e acc :
  submission_comments reddit post_id = Raise e → prows post_id acc = acc.
Proof. unfold post_rows. by intros ->. Qed.

Lemma post_rows_extend post_id acc : ∃ rows, prows post_id acc = acc ++ rows.
Proof.
  unfold post_rows. destruct (submission_comments reddit post_id) as [f|e].
  - destruct (for_comment_take post_id
                (if top_level_only then replace_more_0 f else forest_list (replace_more_0 f))
                acc) as [k ->]. by eexists.
  - exists []. by rewrite app_nil_r.
Qed.

Lemma posts_rows_extend post_ids acc : ∃ rows, psrows post_ids acc = acc ++ rows.
Proof.
  unfold posts_rows. revert acc.
  induction post_ids as [|p ps IH]; intros acc; simpl.
  - exists []. by rewrite app_nil_r.
  - destruct (post_rows_extend p acc) as [rows1 ->].
    destruct (IH (acc ++ rows1)) as [rows2 ->].
    exists (rows1 ++ rows2). by rewrite <- app_assoc.
Qed.

(** Every row comes from a post of the list whose fetch succeeded. *)
Lemma posts_rows_elem post_ids acc r :
  r ∈ psrows post_ids acc →
  r ∈ acc ∨ ∃ forest, comment_row.post_id r ∈ post_ids ∧
                      submission_comments reddit (comment_row.post_id r) = Ok forest.
Proof.
  unfold posts_rows. revert acc.
  induction post_ids as [|p ps IH]; intros acc; simpl; [by left|].
  intros [Hr|(f & ? & ?)]%IH.
  - unfold post_rows in Hr. destruct (submission_comments reddit p) as [f|e] eqn:Hp; [|by left].
    apply for_comment_elem in Hr as [?|<-]; [by left|].
    right. exists f. split; [by left|done].
  - right. exists f. split; [by right|done].
Qed.

(** Without a cap every genuine comment read is appended. *)
Lemma for_comment_no_limit post_id comments acc :
  limit = None →
  for_comment fromtimestamp post_id limit comments acc
  = acc ++ map (row post_id) (genuine comments).
Proof.
  intros ->. revert acc. induction comments as [|[c rs|h] comments IH]; intros acc; simpl.
  - by rewrite app_nil_r.
  - by rewrite IH, <- app_assoc.
  - apply IH.
Qed.

Lemma posts_rows_no_limit post_ids acc :
  limit = None →
  psrows post_ids acc
  = acc ++ flat_map (read_rows fromtimestamp reddit top_level_only) post_ids.
Proof.
  intros Hl. unfold posts_rows. revert acc.
  induction post_ids as [|p ps IH]; intros acc; simpl.
  - by rewrite app_nil_r.
  - rewrite IH, app_assoc. f_equal. unfold post_rows, read_rows.
    destruct (submission_comments reddit p) as [f|e]; [|by rewrite app_nil_r].
    by rewrite for_comment_no_limit.
Qed.



(** With a cap set, the inner loop stops at the cap when it starts below
    it, and after one row when it starts at or above it. *)
Lemma for_comment_cap post_id comments acc C :
  limit = Some C → 0 < C →
  Z.of_nat (length (for_comment fromtimestamp post_id limit comments acc))
  ≤ Z.max C (Z.of_nat (length acc) + 1).
Proof.
  intros -> HC. revert acc.
  induction comments as [|[c rs|h] comments IH]; intros acc; simpl.
  - lia.
  - destruct (C =? 0) eqn:H0; [lia|].
    rewrite length_app. simpl.
    destruct (C <=? _) eqn:Hreached.
    + rewrite length_app. simpl. lia.
    + apply Z.leb_gt in Hreached. etransitivity; [apply IH|].
      rewrite length_app. simpl. lia.
  - apply IH.
Qed.

Lemma post_rows_cap post_id acc C :
  limit = Some C → 0 < C →
  Z.of_nat (length (prows post_id acc)) ≤ Z.max C (Z.of_nat (length acc) + 1).
Proof.
  intros Hl HC. unfold post_rows.
  destruct (submission_comments reddit post_id) as [f|e]; [|lia].
  by apply for_comment_cap.
Qed.

Lemma posts_rows_cap post_ids acc C :
  limit = Some C → 0 < C →
  Z.of_nat (length (psrows post_ids acc))
  ≤ Z.max C (Z.of_nat (length acc)) + Z.of_nat (length post_ids).
Proof.
  intros Hl HC. unfold posts_rows. revert acc.
  induction post_ids as [|p ps IH]; intros acc; simpl; [lia|].
  etransitivity; [apply IH|].
  pose proof (post_rows_cap p acc C Hl HC). lia.
Qed.

Lemma get_comments_table post_ids :
  fst (get_comments fromtimestamp reddit post_ids top_level_only limit) = psrows post_ids [].
Proof. unfold get_comments. simpl. by rewrite for_post_rows. Qed.

End CommentLoops.

(** ** A subreddit whose search fails *)

Section FailedSubreddit.

Variable fromtimestamp : Z -> datetime.
Variable reddit : Reddit.
Variables (keywords : list string) (start_date end_date : option datetime).
Variables (limit : Z) (sort time_filter : string).

Local Abbreviation search sr keyword := (subreddit_search reddit sr keyword limit sort time_filter).
Local Abbreviation lrows := (listing_rows fromtimestamp start_date end_date).
Local Abbreviation krows := (keyword_rows fromtimestamp reddit start_date end_date limit sort time_filter).
Local Abbreviation srows := (subreddit_rows fromtimestamp reddit keywords start_date end_date limit sort time_filter).
Local Abbreviation sexn := (subreddit_exn reddit keywords limit sort time_filter).

(** The rows kept from a subreddit are those of the listings before the
    failing one and those the failing listing yielded before it failed;
    the keywords after it are not searched. *)
Lemma keyword_rows_raise sr subreddit_name before k after e :
  (∀ k', k' ∈ before → snd (search sr k') = None) →
  snd (search sr k) = Some e →
  krows sr subreddit_name (before ++ k :: after)
  = flat_map (λ k', lrows subreddit_name k' (fst (search sr k'))) before
    ++ lrows subreddit_name k (fst (search sr k)).
Proof.
  intros Hb Hk. induction before as [|k0 before IH]; simpl.
  - by rewrite Hk, app_nil_r.
  - rewrite (Hb k0) by (by left). rewrite IH, app_assoc; [done|].
    intros k' ?. apply Hb. by right.
Qed.

Lemma subreddit_rows_elem r c :
  r ∈ srows c →
  ∃ k s, iterated reddit keywords limit sort time_filter [c] c k s ∧
         in_window fromtimestamp start_date end_date s = true ∧
         r = post_of c k s (fromtimestamp (submission.created_utc s)).
Proof.
  intros Hr.
  assert (r ∈ collected fromtimestamp reddit keywords start_date end_date
                limit sort time_filter [c]) as Hc.
  { rewrite collected_rows. simpl. by rewrite app_nil_r. }
  apply collected_elem in Hc as (c' & k & s & Hit & Hw & ->).
  destruct Hit as [->%list_elem_of_singleton Hit].
  exists k, s. split_and!; [|done|done]. split; [apply list_elem_of_here|done].
Qed.

Lemma subreddit_rows_reached c k s :
  iterated reddit keywords limit sort time_filter [c] c k s →
  in_window fromtimestamp start_date end_date s = true →
  post_of c k s (fromtimestamp (submission.created_utc s)) ∈ srows c.
Proof.
  intros Hit Hw.
  assert (post_of c k s (fromtimestamp (submission.created_utc s))
          ∈ collected fromtimestamp reddit keywords start_date end_date
              limit sort time_filter [c]) as Hc.
  { apply collected_elem. by exists c, k, s. }
  rewrite collected_rows in Hc. simpl in Hc. by rewrite app_nil_r in Hc.
Qed.

(** The output of one turn of the subreddit loop ends with the report of
    the exception, when there is one. *)
Lemma visit_subreddit_out_exn c e st :
  sexn c = Some e →
  ∃ out, search_out (visit_subreddit fromtimestamp reddit c keywords
                       start_date end_date limit sort time_filter st)
         = search_out st ++ out ++ [ErrorIn c e].
Proof.
  unfold visit_subreddit, subreddit_exn.
  destruct (reddit_subreddit reddit c) as [sr|e0]; simpl.
  - pose proof (for_keyword_spec fromtimestamp reddit start_date end_date limit sort time_filter
                  sr c keywords (search_print (Searching c) st)) as (_ & H & out & Hout).
    destruct (for_keyword _ _ _ _ _ _ _ _ _ _ _) as [st2 [e0|]]; simpl in *; intros He.
    + rewrite <- H in He. simplify_eq. exists ([Searching c] ++ out).
      rewrite Hout. by rewrite <- !app_assoc.
    + congruence.
  - intros [= ->]. exists [Searching c]. by rewrite <- app_assoc.
Qed.

Lemma collected_app subs1 subs2 :
  collected fromtimestamp reddit keywords start_date end_date limit sort time_filter (subs1 ++ subs2)
  = collected fromtimestamp reddit keywords start_date end_date limit sort time_filter subs1
    ++ collected fromtimestamp reddit keywords start_date end_date limit sort time_filter subs2.
Proof. by rewrite !collected_rows, flat_map_app. Qed.

Lemma collected_cons c subs :
  collected fromtimestamp reddit keywords start_date end_date limit sort time_filter (c :: subs)
  = srows c
    ++ collected fromtimestamp reddit keywords start_date end_date limit sort time_filter subs.
Proof. by rewrite !collected_rows. Qed.

End FailedSubreddit.

(** * The claims *)

(** ** search_posts: one row per post, first seen kept *)

(** C2. The table returned by [search_posts] has no two rows with the
    same [post_id]; its rows are exactly the first occurrences, in
    iteration order, of each [post_id] among the collected rows, so a
    post returned by several (subreddit, keyword) searches keeps the tags
    of the search processed first.  In particular, with one subreddit
    and two keywords whose searches both return the same single post,
    the table is the one row tagged with the first keyword. *)
Theorem search_posts_unique_first_seen
    fromtimestamp reddit subreddits keywords start_date end_date limit sort time_filter :
  let df := fst (search_posts fromtimestamp reddit subreddits keywords
                   start_date end_date limit sort time_filter) in
  let rows := collected fromtimestamp reddit keywords
                start_date end_date limit sort time_filter subreddits in
  NoDup (map post.post_id df)
  ∧ (∀ r, r ∈ df ↔
          ∃ before after, rows = before ++ r :: after ∧
                          (∀ r', r' ∈ before → post.post_id r' ≠ post.post_id r))
  ∧ (∀ c k1 k2 sr P,
       subreddits = [c] → keywords = [k1; k2] →
       reddit_subreddit reddit c = Ok sr →
       subreddit_search reddit sr k1 limit sort time_filter = ([P], None) →
       subreddit_search reddit sr k2 limit sort time_filter = ([P], None) →
       in_window fromtimestamp start_date end_date P = true →
       df = [post_of c k1 P (fromtimestamp (submission.created_utc P))]).
Proof.
  intros df rows. subst df. rewrite search_posts_table. fold rows. split_and!.
  - apply drop_duplicates_from_NoDup.
  - intros r. unfold drop_duplicates. rewrite drop_duplicates_from_elem.
    split; intros (before & after & ? & H); exists before, after.
    + by destruct H.
    + split_and!; [done|apply not_elem_of_empty|done].
  - intros c k1 k2 sr P -> -> Hsr Hk1 Hk2 HP. subst rows.
    rewrite collected_rows. simpl. unfold subreddit_rows. rewrite Hsr. simpl.
    rewrite Hk1, Hk2. simpl. unfold listing_rows. rewrite !filter_cons, HP. simpl.
    unfold drop_duplicates. simpl.
    destruct (decide (submission.id P ∈ (∅ : gset string))) as [[]%not_elem_of_empty|_].
    destruct (decide (submission.id P ∈ ({[submission.id P]} ∪ ∅ : gset string))) as [_|Hn]; [done|].
    destruct Hn. apply elem_of_union. left. by apply elem_of_singleton.
Qed.

(** The scenario on the sample service: [alpha] searched for [x] and [y],
    both finding post [p1]. *)
Lemma search_posts_unique_first_seen_witness :
  map (λ r, (post.subreddit r, post.search_keyword r, post.post_id r))
      (fst (search_posts fromtimestamp_1aug sample_reddit ["alpha"] ["x"; "y"]
              None None 100 "relevance" "all"))
  = [("alpha", "x", "p1")].
Proof.
  pose proof (search_posts_unique_first_seen fromtimestamp_1aug sample_reddit
                ["alpha"] ["x"; "y"] None None 100 "relevance" "all") as H.
  cbv zeta in H. destruct H as (_ & _ & H).
  rewrite (H "alpha" "x" "y" "alpha" (sample_submission "p1" 1754006400));
    reflexivity.
Defined.

(** ** search_posts: the date window *)

(** C3. With the optional bounds applied, no row of the returned table
    has a date strictly before the start bound or strictly after the end
    bound; every post the loops reach whose date passes both tests is in
    the table; and, the bounds forming a window, every post the loops
    reach whose date equals a bound is in the table: the bounds are
    inclusive. *)
Theorem search_posts_date_window
    fromtimestamp reddit subreddits keywords start_date end_date limit sort time_filter :
  let df := fst (search_posts fromtimestamp reddit subreddits keywords
                   start_date end_date limit sort time_filter) in
  let date s := fromtimestamp (submission.created_utc s) in
  (∀ r, r ∈ df →
        (∀ s, start_date = Some s → dt_lt (post.created_utc r) s = false) ∧
        (∀ e, end_date = Some e → dt_gt (post.created_utc r) e = false))
  ∧ (∀ c k s, iterated reddit keywords limit sort time_filter subreddits c k s →
        in_window fromtimestamp start_date end_date s = true →
        ∃ r, r ∈ df ∧ post.post_id r = submission.id s)
  ∧ (window_ok start_date end_date →
     ∀ c k s, iterated reddit keywords limit sort time_filter subreddits c k s →
        start_date = Some (date s) ∨ end_date = Some (date s) →
        ∃ r, r ∈ df ∧ post.post_id r = submission.id s).
Proof.
  intros df date.
  assert (∀ c k s, iterated reddit keywords limit sort time_filter subreddits c k s →
            in_window fromtimestamp start_date end_date s = true →
            ∃ r, r ∈ df ∧ post.post_id r = submission.id s) as Hin.
  { intros c k s Hit Hw. subst df. rewrite search_posts_table.
    apply (drop_duplicates_from_covers (post_of c k s (date s))); [|apply not_elem_of_empty].
    apply collected_elem. by exists c, k, s. }
  split_and!; [|done|].
  - intros r Hr. subst df. rewrite search_posts_table in Hr.
    apply drop_duplicates_subset, collected_elem in Hr as (c & k & s & _ & Hw & ->).
    unfold in_window in Hw. apply andb_true_iff in Hw as [Hs%negb_true_iff He%negb_true_iff].
    simpl. split; intros ? ->; done.
  - intros Hok c k s Hit Hbound. apply (Hin c k s Hit).
    unfold in_window, before_start, after_end, dt_gt. fold (date s).
    unfold window_ok in Hok.
    destruct Hbound as [->| ->].
    + rewrite dt_lt_irrefl. simpl. destruct end_date as [e|]; [|done]. by rewrite Hok.
    + rewrite dt_lt_irrefl, andb_true_r. destruct start_date as [s0|]; [|done]. by rewrite Hok.
Qed.

(** On the sample service, with the window from 00:00:01 to 00:00:02:
    post [p2] is dated at the start bound and post [p3] at the end bound. *)
Lemma search_posts_date_window_witness :
  let df := fst (search_posts fromtimestamp_1aug sample_reddit ["beta"] ["x"; "y"]
                   (Some (mk_datetime 2025 8 1 0 0 1 0)) (Some (mk_datetime 2025 8 1 0 0 2 0))
                   100 "relevance" "all") in
  (∃ r, r ∈ df ∧ post.post_id r = "p2") ∧ (∃ r, r ∈ df ∧ post.post_id r = "p3").
Proof.
  pose proof (search_posts_date_window fromtimestamp_1aug sample_reddit ["beta"] ["x"; "y"]
                (Some (mk_datetime 2025 8 1 0 0 1 0)) (Some (mk_datetime 2025 8 1 0 0 2 0))
                100 "relevance" "all") as H.
  cbv zeta in H. destruct H as (_ & Hin & Hbound). split.
  - apply (Hin "beta" "x" (sample_submission "p2" 1754006401)); [|reflexivity].
    split; [apply list_elem_of_here|].
    exists "beta", [], ["y"]. split_and!; [done|done| |apply list_elem_of_here].
    by intros k ?%elem_of_nil.
  - apply (Hbound eq_refl "beta" "y" (sample_submission "p3" 1754006402)).
    + split; [apply list_elem_of_here|].
      exists "beta", ["x"], []. split_and!; [done|done| |apply list_elem_of_here].
      intros k ->%list_elem_of_singleton. done.
    + by right.
Defined.

(** ** Failures of single items *)

(** C6, as stated, does not hold: a subreddit whose search raises is not
    skipped entirely.  In the sample service the request for keyword [y]
    in [gamma] fails, and the row found in [gamma] for keyword [x] is in
    the table nevertheless. *)
Lemma search_posts_failed_subreddit_not_skipped :
  subreddit_exn sample_reddit ["x"; "y"] 100 "relevance" "all" "gamma"
  = Some "received 429 HTTP response"
  ∧ map (λ r, (post.subreddit r, post.search_keyword r, post.post_id r))
        (fst (search_posts fromtimestamp_1aug sample_reddit ["gamma"; "alpha"] ["x"; "y"]
                None None 100 "relevance" "all"))
    = [("gamma", "x", "p4"); ("alpha", "x", "p1")].
Proof. split; reflexivity. Qed.

(** C6, amended.  If the search of one subreddit raises, the error is
    printed, the rest of the search of that subreddit is skipped (the
    rows collected from it before the error are kept: those of the
    keywords before the failing one and those the failing listing
    yielded; none when the subreddit itself cannot be opened) and the
    loop goes on with the next subreddit, so that every post collected
    from the other subreddits is in the table; when the failing
    subreddit left no row the table is the one of the run without it. *)
Theorem search_posts_failed_subreddit
    fromtimestamp reddit subs1 c subs2 keywords start_date end_date limit sort time_filter e :
  subreddit_exn reddit keywords limit sort time_filter c = Some e →
  let run subreddits := search_posts fromtimestamp reddit subreddits keywords
                          start_date end_date limit sort time_filter in
  let rows := collected fromtimestamp reddit keywords
                start_date end_date limit sort time_filter in
  let kept := subreddit_rows fromtimestamp reddit keywords
                start_date end_date limit sort time_filter c in
  let search sr k := subreddit_search reddit sr k limit sort time_filter in
  ErrorIn c e ∈ snd (run (subs1 ++ c :: subs2))
  ∧ rows (subs1 ++ c :: subs2) = rows subs1 ++ kept ++ rows subs2
  ∧ (∀ sr before k after,
       reddit_subreddit reddit c = Ok sr → keywords = before ++ k :: after →
       (∀ k', k' ∈ before → snd (search sr k') = None) → snd (search sr k) = Some e →
       kept = flat_map (λ k', listing_rows fromtimestamp start_date end_date c k'
                                (fst (search sr k'))) before
              ++ listing_rows fromtimestamp start_date end_date c k (fst (search sr k)))
  ∧ (reddit_subreddit reddit c = Raise e → kept = [])
  ∧ (∀ r, r ∈ rows (subs1 ++ subs2) →
          ∃ r', r' ∈ fst (run (subs1 ++ c :: subs2)) ∧ post.post_id r' = post.post_id r)
  ∧ (kept = [] → fst (run (subs1 ++ c :: subs2)) = fst (run (subs1 ++ subs2))).
Proof.
  intros He run rows kept search.
  assert (rows (subs1 ++ c :: subs2) = rows subs1 ++ kept ++ rows subs2) as Hrows.
  { subst rows kept. cbv beta. by rewrite collected_app, collected_cons. }
  split_and!.
  - apply search_posts_out; [|done]. apply elem_of_app. right. apply list_elem_of_here.
  - done.
  - intros sr before k after Hsr -> Hb Hk. subst kept. unfold subreddit_rows. rewrite Hsr.
    by apply keyword_rows_raise with (e := e).
  - intros Hsr. subst kept. unfold subreddit_rows. by rewrite Hsr.
  - intros r Hr. subst run. cbv beta. rewrite search_posts_table. fold rows.
    apply drop_duplicates_from_covers; [|apply not_elem_of_empty].
    rewrite Hrows. subst rows. cbv beta in Hr. rewrite collected_app in Hr.
    rewrite !elem_of_app. apply elem_of_app in Hr as [?|?]; eauto.
  - intros Hkept. subst run. cbv beta. rewrite !search_posts_table. fold rows.
    rewrite Hrows, Hkept. subst rows. cbv beta. by rewrite collected_app.
Qed.

(** On the sample service: [gamma] fails at its second keyword and keeps
    the row of the first; [ghost] fails at its first keyword and leaves
    no row. *)
Lemma search_posts_failed_subreddit_witness :
  let run subreddits := search_posts fromtimestamp_1aug sample_reddit subreddits ["x"; "y"]
                          None None 100 "relevance" "all" in
  ErrorIn "gamma" "received 429 HTTP response" ∈ snd (run (["alpha"] ++ "gamma" :: ["beta"]))
  ∧ map post.post_id
        (subreddit_rows fromtimestamp_1aug sample_reddit ["x"; "y"]
           None None 100 "relevance" "all" "gamma")
    = ["p4"]
  ∧ fst (run ([] ++ "ghost" :: ["alpha"])) = fst (run ([] ++ ["alpha"])).
Proof.
  intros run.
  pose proof (search_posts_failed_subreddit fromtimestamp_1aug sample_reddit
                ["alpha"] "gamma" ["beta"] ["x"; "y"] None None 100 "relevance" "all"
                "received 429 HTTP response" eq_refl) as Hgamma.
  pose proof (search_posts_failed_subreddit fromtimestamp_1aug sample_reddit
                [] "ghost" ["alpha"] ["x"; "y"] None None 100 "relevance" "all"
                "Redirect to /subreddits/search" eq_refl) as Hghost.
  cbv zeta in Hgamma, Hghost.
  destruct Hgamma as (Hout & _ & Hkept & _).
  destruct Hghost as (_ & _ & Hnone & _ & _ & Hsame).
  split_and!.
  - exact Hout.
  - rewrite (Hkept "gamma" ["x"] "y" []); [reflexivity|reflexivity|reflexivity| |reflexivity].
    intros k ->%list_elem_of_singleton. reflexivity.
  - apply Hsame. rewrite (Hnone "ghost" [] "x" ["y"]); [reflexivity|reflexivity|reflexivity| |reflexivity].
    by intros k ?%elem_of_nil.
Defined.

(** C5, as stated, does not hold: an item that fails can contribute rows.
    In the sample service the listing for keyword [y] in [beta] fails
    after its first hit, and that hit is in the table. *)
Lemma failed_item_contributes_rows :
  subreddit_exn sample_reddit ["y"] 100 "relevance" "all" "beta"
  = Some "received 503 HTTP response"
  ∧ map (λ r, (post.subreddit r, post.search_keyword r, post.post_id r))
        (fst (search_posts fromtimestamp_1aug sample_reddit ["beta"] ["y"]
                None None 100 "relevance" "all"))
    = [("beta", "y", "p3")].
Proof. split; reflexivity. Qed.

(** C5, amended.  A failure of one item is caught in the turn of the loop
    for that item and printed, and the loop goes on with the items that
    follow.  A post whose comments cannot be fetched contributes no row.
    A subreddit whose search fails contributes exactly the rows appended
    before the exception, which are kept: the row of every submission
    the loops reached in that subreddit whose date passed the tests, and
    no other, so there is none when the failure precedes the first
    submission. *)
Theorem item_failure_is_contained
    fromtimestamp reddit keywords start_date end_date limit sort time_filter
    top_level_only comment_limit :
  (∀ c e st rest,
     subreddit_exn reddit keywords limit sort time_filter c = Some e →
     let st' := visit_subreddit fromtimestamp reddit c keywords
                  start_date end_date limit sort time_filter st in
     let kept := subreddit_rows fromtimestamp reddit keywords
                   start_date end_date limit sort time_filter c in
     all_results st' = all_results st ++ kept
     ∧ (∃ out, search_out st' = search_out st ++ out ++ [ErrorIn c e])
     ∧ (∀ r, r ∈ kept ↔
             ∃ k s, iterated reddit keywords limit sort time_filter [c] c k s ∧
                    in_window fromtimestamp start_date end_date s = true ∧
                    r = post_of c k s (fromtimestamp (submission.created_utc s)))
     ∧ all_results (for_subreddit fromtimestamp reddit (c :: rest) keywords
                      start_date end_date limit sort time_filter st)
       = all_results st ++ kept
         ++ collected fromtimestamp reddit keywords
              start_date end_date limit sort time_filter rest)
  ∧ (∀ p e total idx st rest,
       submission_comments reddit p = Raise e →
       let st' := visit_post fromtimestamp reddit total top_level_only comment_limit idx p st in
       all_comments st' = all_comments st
       ∧ comments_out st' = comments_out st ++ [Collecting (idx + 1) total; ErrorCollecting p e]
       ∧ all_comments (for_post fromtimestamp reddit total top_level_only comment_limit
                         idx (p :: rest) st)
         = posts_rows fromtimestamp reddit top_level_only comment_limit rest (all_comments st)).
Proof.
  split.
  - intros c e st rest He st' kept. split_and!.
    + apply visit_subreddit_rows.
    + apply (visit_subreddit_out_exn fromtimestamp reddit keywords start_date end_date
               limit sort time_filter c e st He).
    + intros r. split.
      * by apply subreddit_rows_elem.
      * intros (k & s & Hit & Hw & ->). by apply subreddit_rows_reached.
    + rewrite for_subreddit_rows, collected_rows. done.
  - intros p e total idx st rest Hp st'. subst st'. split_and!.
    + unfold visit_post. by rewrite Hp.
    + unfold visit_post. rewrite Hp. simpl. by rewrite <- app_assoc.
    + simpl. rewrite for_post_rows, visit_post_rows.
      by rewrite (post_rows_raise _ _ _ _ p e).
Qed.

(** On the sample service: the search of [beta], whose listing for [y]
    fails after post [p3], and the fetch of [gone]. *)
Lemma item_failure_is_contained_witness :
  let st' := visit_subreddit fromtimestamp_1aug sample_reddit "beta" ["y"]
               None None 100 "relevance" "all"
               {| all_results := []; search_out := [] |} in
  map post.post_id (all_results st') = ["p3"]
  ∧ post_of "beta" "y" (sample_submission "p3" 1754006402) (fromtimestamp_1aug 1754006402)
    ∈ subreddit_rows fromtimestamp_1aug sample_reddit ["y"] None None 100 "relevance" "all" "beta"
  ∧ (∃ out, search_out st' = out ++ [ErrorIn "beta" "received 503 HTTP response"])
  ∧ all_comments (visit_post fromtimestamp_1aug sample_reddit 3 true None 1 "gone"
                    {| all_comments := []; comments_out := [] |})
    = [].
Proof.
  pose proof (item_failure_is_contained fromtimestamp_1aug sample_reddit
                ["y"] None None 100 "relevance" "all" true None) as [Hsearch Hcomments].
  pose proof (Hsearch "beta" "received 503 HTTP response"
                {| all_results := []; search_out := [] |} ["alpha"] eq_refl) as H.
  cbv zeta in H. destruct H as (Hrows & Hout & Hkept & _).
  cbv zeta. split_and!.
  - rewrite Hrows. reflexivity.
  - apply Hkept. exists "y", (sample_submission "p3" 1754006402). split_and!.
    + split; [apply list_elem_of_here|].
      exists "beta", [], []. split_and!; [done|done| |apply list_elem_of_here].
      by intros k ?%elem_of_nil.
    + reflexivity.
    + reflexivity.
  - destruct Hout as [out Hout]. exists out. exact Hout.
  - apply (Hcomments "gone" "received 404 HTTP response" 3%nat 1%nat
             {| all_comments := []; comments_out := [] |} []).
    reflexivity.
Defined.

(** ** get_comments: a post whose comments cannot be fetched *)



(** ** get_comments: the cap *)

(** X10. What the cap does bound: the first post stops at the cap, and
    each later post adds one row at most, so the table has at most the
    cap plus the number of later posts. *)
Lemma get_comments_cap_bound fromtimestamp reddit p rest top_level_only C :
  0 < C →
  Z.of_nat (length (fst (get_comments fromtimestamp reddit (p :: rest) top_level_only (Some C))))
  ≤ C + Z.of_nat (length rest).
Proof.
  intros HC. rewrite get_comments_table. unfold posts_rows. simpl.
  pose proof (post_rows_cap fromtimestamp reddit top_level_only (Some C) p [] C eq_refl HC) as H1.
  pose proof (posts_rows_cap fromtimestamp reddit top_level_only (Some C) rest
                (post_rows fromtimestamp reddit top_level_only (Some C) p []) C eq_refl HC) as H2.
  unfold posts_rows in H2. simpl in H1. lia.
Qed.

(** C1 fails on the code.  With the cap set to 2, the first post gives two
    rows and the running total reaches the cap; the [break] of line 148
    leaves the loop over the comments of that post only, so the second
    post is processed and adds a row: the table has three rows. *)
Theorem get_comments_cap_exceeded :
  let df := fst (get_comments fromtimestamp_1aug sample_reddit ["p1"; "p2"] true (Some 2)) in
  map (λ r, (comment_row.post_id r, comment_row.comment_id r)) df
  = [("p1", "c1"); ("p1", "c2"); ("p2", "c4")]
  ∧ length df = 3%nat.
Proof. split; reflexivity. Qed.

(** ** get_comments: placeholders *)

Lemma forest_nodes_top forest n : n ∈ forest → n ∈ forest_nodes forest.
Proof.
  intros Hn. apply list_elem_of_In, in_flat_map. exists n.
  split; [by apply list_elem_of_In|]. destruct n; by left.
Qed.

(** C4, as stated, does not hold: the placeholders are not expanded.  The
    tree of sample post [p2] holds comment [c4] and a placeholder that
    stands for comment [c5]; the flattened view read by [get_comments]
    gives the row of [c4] alone, while the resolved tree holds both. *)
Lemma get_comments_placeholder_not_expanded :
  ∃ forest,
    sample_comments "p2" = Ok forest
    ∧ map comment_row.comment_id
          (fst (get_comments fromtimestamp_1aug sample_reddit ["p2"] false None))
      = ["c4"]
    ∧ map comment.id (genuine (forest_list (fully_resolved forest))) = ["c4"; "c5"].
Proof. eexists. split_and!; reflexivity. Qed.

Lemma node_comments_resolve_more n c :
  c ∈ node_comments n → c ∈ present_comments (resolve_more n).
Proof.
  unfold present_comments. revert c.
  induction n as [c0 replies IH|hidden _] using node_forest_ind; intros c; simpl;
    [|by intros ?%elem_of_nil].
  rewrite app_nil_r. intros [->|Hc]%elem_of_cons; [by left|right].
  apply list_elem_of_In, in_flat_map in Hc as (r & Hr & Hc).
  rewrite flat_map_flat_map. apply list_elem_of_In, in_flat_map. exists r. split; [done|].
  rewrite Forall_forall in IH. apply list_elem_of_In, IH; [by apply list_elem_of_In|].
  by apply list_elem_of_In.
Qed.

Lemma present_comments_fully_resolved forest c :
  c ∈ present_comments forest → c ∈ present_comments (fully_resolved forest).
Proof.
  unfold present_comments at 1, fully_resolved.
  intros (n & Hn & Hc)%list_elem_of_In%in_flat_map.
  unfold present_comments. rewrite flat_map_flat_map.
  apply list_elem_of_In, in_flat_map. exists n. split; [done|].
  by apply list_elem_of_In, node_comments_resolve_more, list_elem_of_In.
Qed.

Lemma genuine_fully_resolved forest c :
  c ∈ genuine forest → c ∈ genuine (fully_resolved forest).
Proof.
  unfold genuine, fully_resolved.
  intros ([c' rs|h] & Hn & Hc)%list_elem_of_In%in_flat_map; [|done].
  rewrite flat_map_flat_map. apply list_elem_of_In, in_flat_map.
  exists (Comment c' rs). split; [done|]. exact Hc.
Qed.

(** C4, amended.  For each post the placeholders of the fetched tree are
    removed, none being expanded, before any comment is read, so that
    the view read afterwards (top level or flattened) holds no
    placeholder and exactly the comments present in the tree as fetched,
    each of which gives a row when no cap is set.  These comments are
    among those of the same view of the complete resolved tree, and the
    view read is that view of the complete resolved tree when the
    fetched tree has no placeholder. *)
Theorem get_comments_placeholders_removed
    fromtimestamp reddit p forest (top_level_only : bool) :
  submission_comments reddit p = Ok forest →
  let read := if top_level_only then replace_more_0 forest
              else forest_list (replace_more_0 forest) in
  let resolved := if top_level_only then fully_resolved forest
                  else forest_list (fully_resolved forest) in
  fst (get_comments fromtimestamp reddit [p] top_level_only None)
  = map (comment_row_of fromtimestamp p) (genuine read)
  ∧ (∀ n, n ∈ read → ∃ c replies, n = Comment c replies)
  ∧ genuine read ≡ₚ (if top_level_only then genuine forest else present_comments forest)
  ∧ (forest_has_more forest = false → read = resolved)
  ∧ (∀ c, c ∈ genuine read → c ∈ genuine resolved).
Proof.
  intros Hp read resolved. split_and!.
  - rewrite get_comments_table, posts_rows_no_limit by done. simpl.
    unfold read_rows. rewrite Hp. by rewrite app_nil_r.
  - intros n Hn. apply (forest_nodes_no_more (replace_more_0 forest)).
    + apply replace_more_0_no_more.
    + subst read. destruct top_level_only.
      * by apply forest_nodes_top.
      * by rewrite <- forest_list_nodes.
  - subst read. destruct top_level_only.
    + by rewrite genuine_replace_more_0.
    + by rewrite genuine_forest_list, present_comments_replace_more_0.
  - intros Hno. subst read resolved. by rewrite replace_more_0_id, fully_resolved_id.
  - intros c. subst read resolved. destruct top_level_only.
    + rewrite genuine_replace_more_0. apply genuine_fully_resolved.
    + rewrite !genuine_forest_list, present_comments_replace_more_0.
      apply present_comments_fully_resolved.
Qed.

(** On the sample service: post [p1], whose tree has no placeholder. *)
Lemma get_comments_placeholders_removed_witness :
  let forest := [Comment (sample_comment "c1") [Comment (sample_comment "c3") []];
                 Comment (sample_comment "c2") []] in
  map comment_row.comment_id
      (fst (get_comments fromtimestamp_1aug sample_reddit ["p1"] false None))
  = ["c1"; "c2"; "c3"]
  ∧ forest_list (replace_more_0 forest) = forest_list (fully_resolved forest)
  ∧ sample_comment "c1" ∈ genuine (forest_list (fully_resolved forest)).
Proof.
  intros forest.
  pose proof (get_comments_placeholders_removed fromtimestamp_1aug sample_reddit "p1"
                forest false eq_refl) as H.
  cbv zeta in H. destruct H as (Hrows & _ & _ & Hsame & Hamong). split_and!.
  - rewrite Hrows. reflexivity.
  - apply Hsame. reflexivity.
  - apply Hamong. apply list_elem_of_here.
Defined.

(** ** save_data *)

Lemma Z_range_forallb (P : Z → bool) lo n :
  forallb P (Z_range lo n) = true → ∀ z, lo ≤ z < lo + Z.of_nat n → P z = true.
Proof.
  intros H z Hz. rewrite forallb_forall in H. apply H. unfold Z_range.
  apply in_map_iff. exists (Z.to_nat (z - lo)). split; [lia|]. apply in_seq. lia.
Qed.

Lemma decimal_year y : 1000 ≤ y ≤ 9999 → numeral 4 y (decimal y) = true.
Proof.
  intros Hy. apply (Z_range_forallb (λ z, numeral 4 z (decimal z)) 1000 (9 * 1000)); [|lia].
  vm_compute. reflexivity.
Qed.

Lemma zfill_decimal n : 0 ≤ n ≤ 99 → numeral 2 n (zfill 2 (decimal n)) = true.
Proof.
  intros Hn. apply (Z_range_forallb (λ z, numeral 2 z (zfill 2 (decimal z))) 0 100); [|lia].
  vm_compute. reflexivity.
Qed.

Lemma string_app_nil_r s : s +:+ "" = s.
Proof.
  induction s as [|c s IH]; [done|].
  change (String c (s +:+ "") = String c s). by rewrite IH.
Qed.

Lemma string_app_inj_l p a b : p +:+ a = p +:+ b → a = b.
Proof.
  induction p as [|c p IH]; [done|]. intros H.
  change (String c (p +:+ a) = String c (p +:+ b)) in H. injection H as H. by apply IH.
Qed.

(** The format of line 158, directive by directive. *)
Lemma strftime_format now :
  strftime now "%Y%m%d_%H%M%S"
  = decimal (year now) +:+ zfill 2 (decimal (month now)) +:+ zfill 2 (decimal (day now))
    +:+ "_" +:+ zfill 2 (decimal (hour now)) +:+ zfill 2 (decimal (minute now))
    +:+ zfill 2 (decimal (second now)).
Proof.
  rewrite <- (string_app_nil_r (zfill 2 (decimal (second now)))). reflexivity.
Qed.

(** C8. Called at a moment [now] of a year written with four digits,
    [save_data] returns the name of the posts file, which is the prefix,
    the label [_posts_] and the timestamp, followed by [.csv]; the
    timestamp is the year on four digits, the month and the day on two
    each, an underscore, and the hour, the minute and the second on two
    each.  The posts table, and so each non-empty one, is written under
    that name; a comments table with rows is written under the name
    with the label [_comments_]; without a comments table, or with an
    empty one, no file other than the posts file is written. *)
Theorem save_data_files
    posts_to_csv comments_to_csv now fs posts_df comments_df output_prefix :
  1000 ≤ year now ≤ 9999 → 1 ≤ month now ≤ 12 → 1 ≤ day now ≤ 31 →
  0 ≤ hour now ≤ 23 → 0 ≤ minute now ≤ 59 → 0 ≤ second now ≤ 59 →
  let r := save_data posts_to_csv comments_to_csv now fs posts_df comments_df output_prefix in
  ∃ Y m d H M S,
    numeral 4 (year now) Y = true ∧ numeral 2 (month now) m = true
    ∧ numeral 2 (day now) d = true ∧ numeral 2 (hour now) H = true
    ∧ numeral 2 (minute now) M = true ∧ numeral 2 (second now) S = true
    ∧ let timestamp := Y +:+ m +:+ d +:+ "_" +:+ H +:+ M +:+ S in
      let posts_filename := output_prefix +:+ "_posts_" +:+ timestamp +:+ ".csv" in
      let comments_filename := output_prefix +:+ "_comments_" +:+ timestamp +:+ ".csv" in
      returned r = posts_filename
      ∧ files r !! posts_filename = Some (posts_to_csv posts_df)
      ∧ (∀ df, comments_df = Some df → df ≠ [] →
               files r = <[comments_filename := comments_to_csv df]>
                           (<[posts_filename := posts_to_csv posts_df]> fs))
      ∧ (comments_df = None ∨ comments_df = Some [] →
         files r = <[posts_filename := posts_to_csv posts_df]> fs).
Proof.
  intros Hy Hm Hd HH HM HS r.
  exists (decimal (year now)), (zfill 2 (decimal (month now))), (zfill 2 (decimal (day now))),
         (zfill 2 (decimal (hour now))), (zfill 2 (decimal (minute now))),
         (zfill 2 (decimal (second now))).
  split_and!; try (apply zfill_decimal; lia); [by apply decimal_year|].
  intros timestamp posts_filename comments_filename.
  assert (posts_filename ≠ comments_filename) as Hne.
  { intros Heq%string_app_inj_l. discriminate. }
  subst r. unfold save_data. rewrite strftime_format.
  fold timestamp. fold posts_filename. fold comments_filename.
  destruct comments_df as [[|row df]|]; simpl; split_and!; try done.
  - apply lookup_insert_eq.
  - by intros df [= <-] ?.
  - rewrite lookup_insert_ne by done. apply lookup_insert_eq.
  - by intros df0 [= <-] _.
  - by intros [?|?].
  - apply lookup_insert_eq.
Qed.

(** The export of 30 September 2025, 14:05:09, without and with a
    comments table. *)
Lemma save_data_files_witness :
  let now := mk_datetime 2025 9 30 14 5 9 0 in
  let row := comment_row_of fromtimestamp_1aug "p1" (sample_comment "c1") in
  (∃ timestamp,
     let r := save_data (λ _, "post_id") (λ _, "comment_id") now ∅ [] None
                "ai_boyfriend_study" in
     returned r = "ai_boyfriend_study" +:+ "_posts_" +:+ timestamp +:+ ".csv"
     ∧ files r = {[ "ai_boyfriend_study" +:+ "_posts_" +:+ timestamp +:+ ".csv" := "post_id" ]})
  ∧ (∃ timestamp,
       files (save_data (λ _, "post_id") (λ _, "comment_id") now ∅ [] (Some [row])
                "ai_boyfriend_study")
       = <[ "ai_boyfriend_study" +:+ "_comments_" +:+ timestamp +:+ ".csv" := "comment_id" ]>
           {[ "ai_boyfriend_study" +:+ "_posts_" +:+ timestamp +:+ ".csv" := "post_id" ]}).
Proof.
  intros now row. split.
  - destruct (save_data_files (λ _, "post_id") (λ _, "comment_id")
                now ∅ [] None "ai_boyfriend_study")
      as (Y & m & d & H & M & S & _ & _ & _ & _ & _ & _ & Hr & _ & _ & Hnone);
      simpl; try lia.
    eexists. split; [exact Hr|]. apply Hnone. by left.
  - destruct (save_data_files (λ _, "post_id") (λ _, "comment_id")
                now ∅ [] (Some [row]) "ai_boyfriend_study")
      as (Y & m & d & H & M & S & _ & _ & _ & _ & _ & _ & _ & _ & Hsome & _);
      simpl; try lia.
    eexists. apply (Hsome [row]); done.
Defined.

(** ** The constructor *)

(** C10. The constructor does not read its three arguments: whatever
    they are, under the same environment it builds the same session,
    whose identifier and secret are the values of [REDDIT_CLIENT_ID] and
    [REDDIT_CLIENT_SECRET] and whose user agent is the value of
    [REDDIT_USER_AGENT], or [reddit-docker-app] when that variable is
    not set. *)
Theorem init_ignores_arguments (environ : gmap string string)
    (id1 secret1 agent1 id2 secret2 agent2 : option string) :
  __init__ environ id1 secret1 agent1 = __init__ environ id2 secret2 agent2
  ∧ self_reddit (__init__ environ id1 secret1 agent1)
    = {| client_id := environ !! "REDDIT_CLIENT_ID";
         client_secret := environ !! "REDDIT_CLIENT_SECRET";
         user_agent := default "reddit-docker-app" (environ !! "REDDIT_USER_AGENT") |}.
Proof.
  split; [reflexivity|].
  unfold __init__, getenv, getenv_default. simpl.
  by destruct (environ !! "REDDIT_USER_AGENT").
Qed.

(** * Further properties of search_posts *)

Lemma drop_duplicates_from_sublist seen df :
  drop_duplicates_from seen df `sublist_of` df.
Proof.
  revert seen. induction df as [|a df IH]; intros seen; simpl; [constructor|].
  destruct (decide (post.post_id a ∈ seen)).
  - by apply sublist_cons.
  - by apply sublist_skip.
Qed.

Lemma drop_duplicates_from_length seen df :
  length (drop_duplicates_from seen df)
  = size ((list_to_set (map post.post_id df) : gset string) ∖ seen).
Proof.
  revert seen. induction df as [|a df IH]; intros seen; simpl.
  - by rewrite difference_disjoint_L, size_empty by apply disjoint_empty_l.
  - destruct (decide (post.post_id a ∈ seen)) as [Hin|Hnin]; simpl; rewrite IH.
    + f_equal. apply set_eq. intros x.
      rewrite !elem_of_difference, elem_of_union, elem_of_singleton.
      split; [tauto|]. intros [[->|?] ?]; [done|tauto].
    + transitivity (size ({[post.post_id a]}
                          ∪ (list_to_set (map post.post_id df) : gset string)
                            ∖ ({[post.post_id a]} ∪ seen))).
      * symmetry. rewrite size_union, size_singleton; [done|].
        intros x ?%elem_of_singleton [_ Hx]%elem_of_difference. subst x.
        apply Hx, elem_of_union. left. by apply elem_of_singleton.
      * f_equal. apply set_eq. intros x.
        rewrite elem_of_union, !elem_of_difference, !elem_of_union, !elem_of_singleton.
        destruct (decide (x = post.post_id a)) as [->|]; tauto.
Qed.

Section SearchExtras.

Variable fromtimestamp : Z -> datetime.
Variable reddit : Reddit.
Variables (keywords : list string) (start_date end_date : option datetime).
Variables (limit : Z) (sort time_filter : string).

Local Abbreviation klog := (keyword_log reddit limit sort time_filter).
Local Abbreviation slog := (subreddit_log reddit keywords limit sort time_filter).
Local Abbreviation rows := (collected fromtimestamp reddit keywords start_date end_date
                              limit sort time_filter).
Local Abbreviation run subreddits :=
  (search_posts fromtimestamp reddit subreddits keywords
     start_date end_date limit sort time_filter).

Lemma for_keyword_log sr subreddit_name kws st :
  search_out (fst (for_keyword fromtimestamp reddit sr subreddit_name kws
                     start_date end_date limit sort time_filter st))
  = search_out st ++ klog sr kws.
Proof.
  revert st. induction kws as [|k kws IH]; intros st; simpl.
  - by rewrite app_nil_r.
  - destruct (subreddit_search _ _ _ _ _ _) as [ys [e|]]; simpl.
    + done.
    + rewrite IH. simpl. by rewrite <- app_assoc.
Qed.

Lemma visit_subreddit_log c st :
  search_out (visit_subreddit fromtimestamp reddit c keywords
                start_date end_date limit sort time_filter st)
  = search_out st ++ slog c.
Proof.
  unfold visit_subreddit, subreddit_log.
  destruct (reddit_subreddit reddit c) as [sr|e]; simpl.
  - pose proof (for_keyword_spec fromtimestamp reddit start_date end_date limit sort time_filter
                  sr c keywords (search_print (Searching c) st)) as (_ & Hexn & _).
    pose proof (for_keyword_log sr c keywords (search_print (Searching c) st)) as Hlog.
    destruct (for_keyword _ _ _ _ _ _ _ _ _ _ _) as [st2 [e|]]; simpl in *;
      rewrite <- Hexn, Hlog; simpl; rewrite <- ?app_assoc, ?app_nil_r; done.
  - by rewrite <- app_assoc.
Qed.

Lemma for_subreddit_log subreddits st :
  search_out (for_subreddit fromtimestamp reddit subreddits keywords
                start_date end_date limit sort time_filter st)
  = search_out st ++ flat_map slog subreddits.
Proof.
  unfold for_subreddit. revert st.
  induction subreddits as [|c cs IH]; intros st; simpl.
  - by rewrite app_nil_r.
  - by rewrite IH, visit_subreddit_log, <- app_assoc.
Qed.

(** The whole output of [search_posts]. *)
Lemma search_posts_log subreddits :
  snd (run subreddits)
  = flat_map slog subreddits
    ++ match fst (run subreddits) with
       | [] => []
       | _ :: _ => [TotalUnique (length (fst (run subreddits)))]
       end.
Proof.
  unfold search_posts.
  pose proof (for_subreddit_log subreddits {| all_results := []; search_out := [] |}) as Hlog.
  simpl in Hlog. rewrite Hlog.
  destruct (all_results _) as [|r df] eqn:Hres; simpl; [by rewrite app_nil_r|].
  unfold drop_duplicates. simpl.
  destruct (decide (post.post_id r ∈ (∅ : gset string))) as [[]%not_elem_of_empty|_]. done.
Qed.

Lemma searching_lines_app out1 out2 :
  searching_lines (out1 ++ out2) = searching_lines out1 ++ searching_lines out2.
Proof. apply flat_map_app. Qed.

Lemma searching_lines_keyword_log sr kws : searching_lines (klog sr kws) = [].
Proof.
  induction kws as [|k kws IH]; simpl; [done|].
  by destruct (snd _).
Qed.

Lemma searching_lines_subreddit_log c : searching_lines (slog c) = [c].
Proof.
  unfold subreddit_log.
  change (searching_lines (Searching c :: ?l)) with (c :: searching_lines l).
  f_equal. destruct (reddit_subreddit reddit c) as [sr|e]; [|done].
  rewrite searching_lines_app, searching_lines_keyword_log.
  by destruct (keyword_exn _ _ _ _ _ _).
Qed.

Lemma keyword_log_keyword l sr kws : l ∈ klog sr kws → ∃ k, l = Keyword k.
Proof.
  induction kws as [|k ks IH]; simpl; [by intros ?%elem_of_nil|].
  intros [->|Hl]%elem_of_cons; [by eexists|].
  destruct (snd _); [by apply elem_of_nil in Hl|]. by apply IH.
Qed.

Lemma subreddit_log_no_total c n : TotalUnique n ∉ slog c.
Proof.
  unfold subreddit_log. intros [?|Hc]%elem_of_cons; [done|].
  destruct (reddit_subreddit reddit c) as [sr|e].
  - apply elem_of_app in Hc as [[k ?]%keyword_log_keyword|Hc]; [done|].
    destruct (keyword_exn _ _ _ _ _ _); [|by apply elem_of_nil in Hc].
    by apply list_elem_of_singleton in Hc.
  - by apply list_elem_of_singleton in Hc.
Qed.

(** X1. Every row of the table comes from a submission that a search of
    the row's own subreddit and keyword yielded, within the date window;
    the subreddit and the keyword are among those asked for. *)
Theorem search_posts_rows_from_search subreddits r :
  r ∈ fst (search_posts fromtimestamp reddit subreddits keywords
             start_date end_date limit sort time_filter) →
  post.subreddit r ∈ subreddits ∧ post.search_keyword r ∈ keywords
  ∧ ∃ s, iterated reddit keywords limit sort time_filter subreddits
           (post.subreddit r) (post.search_keyword r) s
         ∧ in_window fromtimestamp start_date end_date s = true
         ∧ r = post_of (post.subreddit r) (post.search_keyword r) s
                 (fromtimestamp (submission.created_utc s)).
Proof.
  rewrite search_posts_table.
  intros (c & k & s & Hit & Hw & ->)%drop_duplicates_subset%collected_elem. simpl.
  split_and!.
  - by destruct Hit.
  - destruct Hit as (_ & sr & before & after & _ & -> & _).
    apply elem_of_app. right. by left.
  - by exists s.
Qed.

(** X2. The rows of the table are in the order in which they were
    collected: subreddit by subreddit as listed, and within a subreddit
    in the order of the keyword loop. *)
Theorem search_posts_keeps_order subreddits :
  fst (search_posts fromtimestamp reddit subreddits keywords
         start_date end_date limit sort time_filter)
  `sublist_of` flat_map (subreddit_rows fromtimestamp reddit keywords
                           start_date end_date limit sort time_filter) subreddits.
Proof.
  rewrite search_posts_table, collected_rows. apply drop_duplicates_from_sublist.
Qed.

(** X3. The count of unique posts is printed last, and only when the
    table has a row; it is the number of rows of the table, which is the
    number of distinct [post_id]s collected. *)
Theorem search_posts_total_unique subreddits :
  let df := fst (search_posts fromtimestamp reddit subreddits keywords
                   start_date end_date limit sort time_filter) in
  let out := snd (search_posts fromtimestamp reddit subreddits keywords
                    start_date end_date limit sort time_filter) in
  length df
  = size (list_to_set
            (map post.post_id
               (collected fromtimestamp reddit keywords start_date end_date
                  limit sort time_filter subreddits)) : gset string)
  ∧ (df ≠ [] → last out = Some (TotalUnique (length df)))
  ∧ (df = [] → ∀ n, TotalUnique n ∉ out).
Proof.
  intros df out. split_and!.
  - subst df. rewrite search_posts_table. unfold drop_duplicates.
    rewrite drop_duplicates_from_length. f_equal. apply difference_empty_L.
  - intros Hdf. subst out. rewrite search_posts_log. fold df.
    destruct df; [done|]. by rewrite last_snoc.
  - intros Hdf n. subst out. rewrite search_posts_log. fold df. rewrite Hdf, app_nil_r.
    intros (c & _ & Hc%list_elem_of_In)%list_elem_of_In%in_flat_map.
    by apply subreddit_log_no_total in Hc.
Qed.

(** X4. Every subreddit of the list is attempted, once and in order,
    whatever failed before it: the [Searching] lines of the output are
    the list itself. *)
Theorem search_posts_attempts_every_subreddit subreddits :
  searching_lines (snd (search_posts fromtimestamp reddit subreddits keywords
                          start_date end_date limit sort time_filter))
  = subreddits.
Proof.
  rewrite search_posts_log, searching_lines_app.
  assert (searching_lines (flat_map slog subreddits) = subreddits) as ->.
  { induction subreddits as [|c cs IH]; [done|]. cbn [flat_map].
    by rewrite searching_lines_app, searching_lines_subreddit_log, IH. }
  rewrite <- (app_nil_r subreddits) at 3. f_equal. by destruct (fst _).
Qed.

End SearchExtras.

(** X5. Without keywords nothing is searched: the table is empty, while
    each subreddit is still opened and a failure to open it is printed. *)
Theorem search_posts_no_keywords
    fromtimestamp reddit subreddits start_date end_date limit sort time_filter :
  search_posts fromtimestamp reddit subreddits [] start_date end_date limit sort time_filter
  = ([], flat_map (λ c, Searching c :: match reddit_subreddit reddit c with
                                       | Raise e => [ErrorIn c e]
                                       | Ok _ => []
                                       end) subreddits).
Proof.
  assert (fst (search_posts fromtimestamp reddit subreddits [] start_date end_date
                 limit sort time_filter) = []) as Hdf.
  { rewrite search_posts_table, collected_rows.
    assert (flat_map (subreddit_rows fromtimestamp reddit [] start_date end_date
                        limit sort time_filter) subreddits = []) as ->; [|done].
    induction subreddits as [|c cs IH]; simpl; [done|].
    rewrite IH. unfold subreddit_rows. by destruct (reddit_subreddit reddit c). }
  pose proof (search_posts_log fromtimestamp reddit [] start_date end_date
                limit sort time_filter subreddits) as Hout.
  rewrite Hdf, app_nil_r in Hout.
  destruct (search_posts _ _ _ _ _ _ _ _ _) as [df out]. simpl in *. by subst.
Qed.

(** * Further properties of get_comments *)

Lemma genuine_elem c comments :
  c ∈ genuine comments ↔ ∃ replies, Comment c replies ∈ comments.
Proof.
  unfold genuine. rewrite list_elem_of_In, in_flat_map. split.
  - intros ([c' rs|h] & Hn%list_elem_of_In & Hc); [|done].
    destruct Hc as [->|[]]. by exists rs.
  - intros [rs Hn]. exists (Comment c rs). split; [by apply list_elem_of_In|by left].
Qed.

Lemma genuine_present c forest : c ∈ genuine forest → c ∈ present_comments forest.
Proof.
  intros [rs Hn]%genuine_elem. apply list_elem_of_In, in_flat_map.
  exists (Comment c rs). split; [by apply list_elem_of_In|by left].
Qed.

Section CommentExtras.

Variable fromtimestamp : Z -> datetime.
Variable reddit : Reddit.
Variable top_level_only : bool.

Local Abbreviation row := (comment_row_of fromtimestamp).
Local Abbreviation rrows := (read_rows fromtimestamp reddit top_level_only).
Local Abbreviation psrows limit := (posts_rows fromtimestamp reddit top_level_only limit).
Local Abbreviation run post_ids limit :=
  (get_comments fromtimestamp reddit post_ids top_level_only limit).

Lemma for_comment_limit_zero post_id comments acc :
  for_comment fromtimestamp post_id (Some 0) comments acc
  = for_comment fromtimestamp post_id None comments acc.
Proof.
  revert acc. induction comments as [|[c rs|h] comments IH]; intros acc; simpl; [done| |done].
  apply IH.
Qed.

Lemma for_post_limit_zero total idx post_ids st :
  for_post fromtimestamp reddit total top_level_only (Some 0) idx post_ids st
  = for_post fromtimestamp reddit total top_level_only None idx post_ids st.
Proof.
  revert idx st. induction post_ids as [|p ps IH]; intros idx st; simpl; [done|].
  rewrite IH. f_equal. unfold visit_post.
  destruct (submission_comments reddit p); [|done]. by rewrite for_comment_limit_zero.
Qed.

(** X6. A cap of [0] is no cap: [limit=0] is falsy at line 147, so the
    call behaves as with [limit=None]. *)
Theorem get_comments_limit_zero post_ids :
  get_comments fromtimestamp reddit post_ids top_level_only (Some 0)
  = get_comments fromtimestamp reddit post_ids top_level_only None.
Proof. unfold get_comments. by rewrite for_post_limit_zero. Qed.

Lemma for_comment_negative post_id comments acc C :
  C < 0 →
  for_comment fromtimestamp post_id (Some C) comments acc
  = acc ++ take 1 (map (row post_id) (genuine comments)).
Proof.
  intros HC. revert acc.
  induction comments as [|[c rs|h] comments IH]; intros acc; simpl.
  - by rewrite app_nil_r.
  - destruct (C =? 0) eqn:H0; [lia|].
    destruct (C <=? _) eqn:Hle; [done|]. apply Z.leb_gt in Hle. lia.
  - apply IH.
Qed.

(** X7. With a negative cap every post gives its first comment and no
    more: the test of line 147 holds after each append. *)
Theorem get_comments_negative_limit post_ids C :
  C < 0 →
  fst (get_comments fromtimestamp reddit post_ids top_level_only (Some C))
  = flat_map (λ p, take 1 (read_rows fromtimestamp reddit top_level_only p)) post_ids.
Proof.
  intros HC. rewrite get_comments_table. unfold posts_rows.
  rewrite <- (app_nil_l (flat_map _ _)). generalize (@nil comment_row.t).
  induction post_ids as [|p ps IH]; intros acc; simpl; [by rewrite app_nil_r|].
  rewrite IH, app_assoc. f_equal. unfold post_rows, read_rows.
  destruct (submission_comments reddit p) as [f|e]; [|by rewrite app_nil_r].
  by apply for_comment_negative.
Qed.

Lemma for_comment_below_cap post_id comments acc C :
  Z.of_nat (length acc) < C →
  for_comment fromtimestamp post_id (Some C) comments acc
  = acc ++ take (Z.to_nat C - length acc) (map (row post_id) (genuine comments)).
Proof.
  revert acc. induction comments as [|[c rs|h] comments IH]; intros acc Hacc; simpl.
  - by rewrite take_nil, app_nil_r.
  - destruct (C =? 0) eqn:H0; [lia|].
    rewrite length_app. simpl.
    destruct (C <=? _) eqn:Hle.
    + apply Z.leb_le in Hle.
      replace (Z.to_nat C - length acc)%nat with 1%nat by lia. done.
    + apply Z.leb_gt in Hle. rewrite IH by (rewrite length_app; simpl; lia).
      rewrite length_app. simpl.
      replace (Z.to_nat C - length acc)%nat
        with (S (Z.to_nat C - (length acc + 1)))%nat by lia.
      simpl. by rewrite <- app_assoc.
  - by apply IH.
Qed.

(** X8. For a single post the cap is exact: the table is the first [C]
    rows of those the post would give without a cap. *)
Theorem get_comments_single_post_cap p C :
  0 < C →
  fst (get_comments fromtimestamp reddit [p] top_level_only (Some C))
  = take (Z.to_nat C) (fst (get_comments fromtimestamp reddit [p] top_level_only None)).
Proof.
  intros HC. rewrite !get_comments_table. unfold posts_rows, post_rows. simpl.
  destruct (submission_comments reddit p) as [f|e]; [|by rewrite take_nil].
  rewrite for_comment_below_cap by (simpl; lia).
  rewrite for_comment_no_limit by done. simpl. by rewrite Nat.sub_0_r.
Qed.

Lemma posts_rows_below_cap post_ids acc C :
  Z.of_nat (length acc + length (flat_map rrows post_ids)) < C →
  psrows (Some C) post_ids acc = acc ++ flat_map rrows post_ids.
Proof.
  unfold posts_rows. revert acc.
  induction post_ids as [|p ps IH]; intros acc; simpl; [by rewrite app_nil_r|].
  rewrite length_app. intros Hlen.
  assert (post_rows fromtimestamp reddit top_level_only (Some C) p acc = acc ++ rrows p) as ->.
  { unfold post_rows, read_rows in *.
    destruct (submission_comments reddit p) as [f|e]; [|by rewrite app_nil_r].
    rewrite for_comment_below_cap by lia.
    rewrite take_ge; [done|]. lia. }
  rewrite IH, app_assoc; [done|]. rewrite length_app. lia.
Qed.

(** X9. A cap that the uncapped total stays below changes nothing. *)
Theorem get_comments_cap_not_reached post_ids C :
  Z.of_nat (length (fst (get_comments fromtimestamp reddit post_ids top_level_only None))) < C →
  fst (get_comments fromtimestamp reddit post_ids top_level_only (Some C))
  = fst (get_comments fromtimestamp reddit post_ids top_level_only None).
Proof.
  rewrite !get_comments_table, posts_rows_no_limit by done. simpl.
  intros Hlen. by rewrite posts_rows_below_cap.
Qed.

(** X11. Without a cap the table is the rows of the posts one after the
    other in the order of the list, so the call on a list in two parts
    gives the two tables joined. *)
Theorem get_comments_no_cap_concat ids1 ids2 :
  fst (get_comments fromtimestamp reddit (ids1 ++ ids2) top_level_only None)
  = fst (get_comments fromtimestamp reddit ids1 top_level_only None)
    ++ fst (get_comments fromtimestamp reddit ids2 top_level_only None)
  ∧ fst (get_comments fromtimestamp reddit (ids1 ++ ids2) top_level_only None)
    = flat_map (read_rows fromtimestamp reddit top_level_only) (ids1 ++ ids2).
Proof.
  rewrite !get_comments_table, !posts_rows_no_limit by done. simpl.
  by rewrite flat_map_app.
Qed.

Lemma for_comment_elem_genuine limit post_id comments acc r :
  r ∈ for_comment fromtimestamp post_id limit comments acc →
  r ∈ acc ∨ ∃ c, c ∈ genuine comments ∧ r = row post_id c.
Proof.
  destruct (for_comment_take fromtimestamp limit post_id comments acc) as [k ->].
  intros [?|Hr]%elem_of_app; [by left|right].
  apply subseteq_take, list_elem_of_fmap in Hr as (c & -> & Hc). eauto.
Qed.

Lemma read_present forest c :
  c ∈ genuine (if top_level_only then replace_more_0 forest
               else forest_list (replace_more_0 forest)) →
  c ∈ present_comments forest.
Proof.
  destruct top_level_only.
  - rewrite genuine_replace_more_0. apply genuine_present.
  - by rewrite genuine_forest_list, present_comments_replace_more_0.
Qed.

(** X12. Whatever the cap, every row of the table is the row of a
    comment present in the fetched tree of the post it names, a post of
    the list whose fetch succeeded; no row comes from behind a
    placeholder. *)
Theorem get_comments_rows_from_fetch post_ids limit r :
  r ∈ fst (get_comments fromtimestamp reddit post_ids top_level_only limit) →
  comment_row.post_id r ∈ post_ids
  ∧ ∃ forest c, submission_comments reddit (comment_row.post_id r) = Ok forest
                ∧ c ∈ present_comments forest
                ∧ r = comment_row_of fromtimestamp (comment_row.post_id r) c.
Proof.
  rewrite get_comments_table. unfold posts_rows.
  assert (∀ acc,
            r ∈ fold_left (λ acc post_id,
                             post_rows fromtimestamp reddit top_level_only limit post_id acc)
                          post_ids acc →
            r ∈ acc ∨
            (comment_row.post_id r ∈ post_ids
             ∧ ∃ forest c, submission_comments reddit (comment_row.post_id r) = Ok forest
                           ∧ c ∈ present_comments forest
                           ∧ r = row (comment_row.post_id r) c)) as H.
  { induction post_ids as [|p ps IH]; intros acc; simpl; [by left|].
    intros [Hp|[? ?]]%IH; [|right; split; [by right|done]].
    unfold post_rows in Hp. destruct (submission_comments reddit p) as [f|e] eqn:Hf; [|by left].
    apply for_comment_elem_genuine in Hp as [?|(c & Hc & ->)]; [by left|]. right. simpl.
    split; [by left|]. exists f, c. split_and!; [done| |done]. by apply read_present. }
  intros [[]%elem_of_nil|?]%H. done.
Qed.

Lemma forest_list_top forest n : n ∈ forest → n ∈ forest_list forest.
Proof. rewrite forest_list_nodes. apply forest_nodes_top. Qed.

End CommentExtras.

(** X13. Without a cap, what is collected at the top level is also
    collected from the flattened tree. *)
Theorem get_comments_top_level_in_flattened fromtimestamp reddit post_ids r :
  r ∈ fst (get_comments fromtimestamp reddit post_ids true None) →
  r ∈ fst (get_comments fromtimestamp reddit post_ids false None).
Proof.
  rewrite !get_comments_table, !posts_rows_no_limit by done. simpl.
  rewrite !list_elem_of_In, !in_flat_map. intros (p & Hp & Hr). exists p. split; [done|].
  unfold read_rows in *. destruct (submission_comments reddit p) as [f|e]; [|done].
  apply list_elem_of_In, list_elem_of_fmap in Hr as (c & -> & [rs Hc]%genuine_elem).
  apply list_elem_of_In, list_elem_of_fmap. exists c. split; [done|].
  apply genuine_elem. exists rs. by apply forest_list_top.
Qed.

Lemma collecting_lines_app out1 out2 :
  collecting_lines (out1 ++ out2) = collecting_lines out1 ++ collecting_lines out2.
Proof. apply flat_map_app. Qed.

Lemma for_post_collecting fromtimestamp reddit total top_level_only limit idx post_ids st :
  collecting_lines
    (comments_out (for_post fromtimestamp reddit total top_level_only limit idx post_ids st))
  = collecting_lines (comments_out st)
    ++ map (λ i, (S i, total)) (seq idx (length post_ids)).
Proof.
  revert idx st. induction post_ids as [|p ps IH]; intros idx st; simpl.
  - by rewrite app_nil_r.
  - rewrite IH. unfold visit_post.
    destruct (submission_comments reddit p) as [f|e]; simpl;
      rewrite ?collecting_lines_app; simpl;
      rewrite <- ?app_assoc, Nat.add_1_r; done.
Qed.

(** X14. Progress is printed once per post, numbered from 1 to the
    number of posts, whether its comments can be fetched or not. *)
Theorem get_comments_progress fromtimestamp reddit post_ids top_level_only limit :
  collecting_lines (snd (get_comments fromtimestamp reddit post_ids top_level_only limit))
  = map (λ i, (S i, length post_ids)) (seq 0 (length post_ids)).
Proof. unfold get_comments. simpl. by rewrite for_post_collecting. Qed.

(** * Further properties of save_data *)

Lemma string_app_assoc a b c : (a +:+ b) +:+ c = a +:+ b +:+ c.
Proof.
  induction a as [|x a IH]; [done|].
  change (String x ((a +:+ b) +:+ c) = String x (a +:+ b +:+ c)). by rewrite IH.
Qed.

Lemma string_take_app a b : string_take (String.length a) (a +:+ b) = a.
Proof.
  induction a as [|x a IH]; [by destruct b|].
  change (String x (string_take (String.length a) (a +:+ b)) = String x a). by rewrite IH.
Qed.

Lemma string_drop_app a b n : string_drop (String.length a + n) (a +:+ b) = string_drop n b.
Proof. induction a as [|x a IH]; [done|]. exact IH. Qed.

Lemma numeral_spec width value s :
  numeral width value s = true → String.length s = width ∧ int_of_digits 0 s = value.
Proof.
  unfold numeral. intros [[Hl%Nat.eqb_eq _]%andb_true_iff Hv%Z.eqb_eq]%andb_true_iff. done.
Qed.

(** The name [save_data] returns. *)
Lemma save_data_returned posts_to_csv comments_to_csv now fs posts_df comments_df output_prefix :
  returned (save_data posts_to_csv comments_to_csv now fs posts_df comments_df output_prefix)
  = output_prefix +:+ "_posts_" +:+ strftime now "%Y%m%d_%H%M%S" +:+ ".csv".
Proof. unfold save_data. by destruct comments_df as [[|row df]|]. Qed.

Lemma strftime_round_trip_fields now suffix :
  valid_now now →
  timestamp_fields (strftime now "%Y%m%d_%H%M%S" +:+ suffix)
  = [year now; month now; day now; hour now; minute now; second now].
Proof.
  intros (Hy & Hm & Hd & HH & HM & HS). rewrite strftime_format.
  destruct (numeral_spec _ _ _ (decimal_year (year now) Hy)) as [LY VY].
  destruct (numeral_spec _ _ _ (zfill_decimal (month now) ltac:(lia))) as [Lm Vm].
  destruct (numeral_spec _ _ _ (zfill_decimal (day now) ltac:(lia))) as [Ld Vd].
  destruct (numeral_spec _ _ _ (zfill_decimal (hour now) ltac:(lia))) as [LH VH].
  destruct (numeral_spec _ _ _ (zfill_decimal (minute now) ltac:(lia))) as [LM VM].
  destruct (numeral_spec _ _ _ (zfill_decimal (second now) ltac:(lia))) as [LS VS].
  set (Y := decimal (year now)) in *. set (m := zfill 2 (decimal (month now))) in *.
  set (d := zfill 2 (decimal (day now))) in *. set (H := zfill 2 (decimal (hour now))) in *.
  set (M := zfill 2 (decimal (minute now))) in *.
  set (S := zfill 2 (decimal (second now))) in *.
  rewrite !string_app_assoc. unfold timestamp_fields.
  assert (∀ n rest, string_drop (4 + n) (Y +:+ rest) = string_drop n rest) as DY.
  { intros n rest. rewrite <- LY. apply string_drop_app. }
  assert (∀ a n rest, String.length a = 2%nat →
                      string_drop (2 + n) (a +:+ rest) = string_drop n rest) as D2.
  { intros a n rest <-. apply string_drop_app. }
  assert (∀ a rest, String.length a = 2%nat → string_take 2 (a +:+ rest) = a) as T2.
  { intros a rest <-. apply string_take_app. }
  assert (∀ n rest, string_drop (1 + n) ("_" +:+ rest) = string_drop n rest) as DU.
  { intros n rest. apply (string_drop_app "_"). }
  f_equal; [|f_equal; [|f_equal; [|f_equal; [|f_equal; [|f_equal]]]]].
  - rewrite <- LY at 1. by rewrite string_take_app.
  - rewrite (DY 0%nat). simpl string_drop. by rewrite T2.
  - rewrite (DY 2%nat), (D2 m 0%nat) by done. simpl string_drop. by rewrite T2.
  - rewrite (DY 5%nat), (D2 m 3%nat), (D2 d 1%nat), (DU 0%nat) by done.
    simpl string_drop. by rewrite T2.
  - rewrite (DY 7%nat), (D2 m 5%nat), (D2 d 3%nat), (DU 2%nat), (D2 H 0%nat) by done.
    simpl string_drop. by rewrite T2.
  - rewrite (DY 9%nat), (D2 m 7%nat), (D2 d 5%nat), (DU 4%nat), (D2 H 2%nat), (D2 M 0%nat)
      by done.
    simpl string_drop. by rewrite T2.
Qed.

(** X15. Reading the timestamp back: from the text [strftime] gives for
    a moment of a four-digit year, with anything after it, the year,
    month, day, hour, minute and second are recovered. *)
Theorem strftime_round_trip now suffix :
  valid_now now →
  timestamp_fields (strftime now "%Y%m%d_%H%M%S" +:+ suffix)
  = [year now; month now; day now; hour now; minute now; second now].
Proof. apply strftime_round_trip_fields. Qed.

(** X16. Two exports under the same prefix are given the same file name
    only when they happen within the same second: moments that differ
    in the year, month, day, hour, minute or second never share a name. *)
Theorem save_data_name_per_second
    posts_to_csv comments_to_csv now1 now2 fs1 fs2 posts1 posts2 comments1 comments2 prefix :
  valid_now now1 → valid_now now2 →
  returned (save_data posts_to_csv comments_to_csv now1 fs1 posts1 comments1 prefix)
  = returned (save_data posts_to_csv comments_to_csv now2 fs2 posts2 comments2 prefix) →
  [year now1; month now1; day now1; hour now1; minute now1; second now1]
  = [year now2; month now2; day now2; hour now2; minute now2; second now2].
Proof.
  intros H1 H2. rewrite !save_data_returned.
  intros Heq%string_app_inj_l%(string_app_inj_l "_posts_").
  rewrite <- (strftime_round_trip_fields now1 ".csv" H1).
  rewrite <- (strftime_round_trip_fields now2 ".csv" H2). by rewrite Heq.
Qed.

(** X17. [save_data] touches no file but those it names: a file under
    any other name is as it was before the call, and no file that
    existed is removed. *)
Theorem save_data_other_files
    posts_to_csv comments_to_csv now fs posts_df comments_df output_prefix name :
  let r := save_data posts_to_csv comments_to_csv now fs posts_df comments_df output_prefix in
  let timestamp := strftime now "%Y%m%d_%H%M%S" in
  (name ≠ output_prefix +:+ "_posts_" +:+ timestamp +:+ ".csv" →
   name ≠ output_prefix +:+ "_comments_" +:+ timestamp +:+ ".csv" →
   files r !! name = fs !! name)
  ∧ (is_Some (fs !! name) → is_Some (files r !! name)).
Proof.
  intros r timestamp. subst r. unfold save_data. fold timestamp.
  destruct comments_df as [[|row df]|]; simpl; split.
  all: try (intros ? ?; by rewrite ?lookup_insert_ne by done).
  all: intros Hsome; rewrite ?lookup_insert; repeat case_decide; eauto.
Qed.

(** * Properties of main *)

Lemma for_keyword_ext fromtimestamp r1 r2 sr c kws start_date end_date limit sort time_filter st :
  subreddit_search r1 = subreddit_search r2 →
  for_keyword fromtimestamp r1 sr c kws start_date end_date limit sort time_filter st
  = for_keyword fromtimestamp r2 sr c kws start_date end_date limit sort time_filter st.
Proof.
  intros Hs. revert st. induction kws as [|k ks IH]; intros st; simpl; [done|].
  rewrite Hs. destruct (subreddit_search r2 _ _ _ _ _) as [ys [e|]]; [done|]. apply IH.
Qed.

(** [search_posts] consults the service for subreddits and listings only. *)
Lemma search_posts_ext
    fromtimestamp r1 r2 subreddits keywords start_date end_date limit sort time_filter :
  reddit_subreddit r1 = reddit_subreddit r2 →
  subreddit_search r1 = subreddit_search r2 →
  search_posts fromtimestamp r1 subreddits keywords start_date end_date limit sort time_filter
  = search_posts fromtimestamp r2 subreddits keywords start_date end_date limit sort time_filter.
Proof.
  intros Hsub Hsearch. unfold search_posts, for_subreddit.
  generalize {| all_results := []; search_out := [] |}. intros st0.
  assert (∀ st, fold_left (λ st c, visit_subreddit fromtimestamp r1 c keywords
                                     start_date end_date limit sort time_filter st)
                          subreddits st
                = fold_left (λ st c, visit_subreddit fromtimestamp r2 c keywords
                                       start_date end_date limit sort time_filter st)
                            subreddits st) as ->; [|done].
  induction subreddits as [|c cs IH]; intros st; simpl; [done|].
  rewrite IH. f_equal. unfold visit_subreddit. rewrite Hsub.
  destruct (reddit_subreddit r2 c) as [sr|e]; [|done].
  by rewrite (for_keyword_ext _ r1 r2).
Qed.

Section MainProperties.

Variable fromtimestamp : Z -> datetime.
Variable service : praw_Reddit -> Reddit.
Variable posts_to_csv : DataFrame post.t -> string.
Variable comments_to_csv : DataFrame comment_row.t -> string.
Variables (cfg : study) (environ : gmap string string).
Variables (now : datetime) (fs : gmap string string).

Local Abbreviation run :=
  (main_body fromtimestamp service posts_to_csv comments_to_csv cfg environ now fs).
Local Abbreviation reddit := (service (self_reddit (__init__ environ None None None))).

Lemma main_body_session :
  self_reddit (run_collector run) = self_reddit (__init__ environ None None None).
Proof.
  unfold main_body, __init__. cbn [self_reddit].
  destruct (search_posts _ _ _ _ _ _ _ _ _) as [df out].
  destruct (cfg_collect_comments cfg && _); [|reflexivity].
  destruct (get_comments _ _ _ _ _). reflexivity.
Qed.

Lemma main_body_posts :
  run_posts run
  = fst (search_posts fromtimestamp reddit (cfg_subreddits cfg) (cfg_keywords cfg)
           (cfg_start_date cfg) (cfg_end_date cfg)
           (cfg_limit cfg) (cfg_sort cfg) (cfg_time_filter cfg)).
Proof.
  unfold main_body, __init__. cbn [self_reddit].
  destruct (search_posts _ _ _ _ _ _ _ _ _) as [df out].
  destruct (cfg_collect_comments cfg && _); [|reflexivity].
  destruct (get_comments _ _ _ _ _). reflexivity.
Qed.

Lemma main_body_comments :
  run_comments run
  = if cfg_collect_comments cfg && (0 <? length (run_posts run))%nat
    then Some (fst (get_comments fromtimestamp reddit (map post.post_id (run_posts run))
                      (cfg_top_level_only cfg) None))
    else None.
Proof.
  rewrite main_body_posts.
  unfold main_body, __init__. cbn [self_reddit].
  destruct (search_posts _ _ _ _ _ _ _ _ _) as [df out]. cbn [fst].
  destruct (cfg_collect_comments cfg && _); [|reflexivity].
  destruct (get_comments _ _ _ _ _). reflexivity.
Qed.

(** X18. Every row of the comments table of a run names a post of the
    posts table of that run. *)
Theorem main_comments_name_posts df r :
  let run := main_body fromtimestamp service posts_to_csv comments_to_csv
               cfg environ now fs in
  run_comments run = Some df → r ∈ df →
  comment_row.post_id r ∈ map post.post_id (run_posts run).
Proof.
  cbv zeta. rewrite main_body_comments. destruct (_ && _); [|done]. intros [= <-].
  rewrite for_post_rows.
  intros [[]%elem_of_nil|(f & Hin & _)]%posts_rows_elem. done.
Qed.

(** X19. [main] sets no cap: when comments are collected, the comments
    table holds, post by post in the order of the posts table, the row
    of every genuine comment read for the post; comments are collected
    exactly when the toggle is on and a post was found. *)
Theorem main_comments_complete :
  let run := main_body fromtimestamp service posts_to_csv comments_to_csv
               cfg environ now fs in
  let reddit := service (self_reddit (run_collector run)) in
  run_comments run
  = if cfg_collect_comments cfg && (0 <? length (run_posts run))%nat
    then Some (flat_map (read_rows fromtimestamp reddit (cfg_top_level_only cfg))
                        (map post.post_id (run_posts run)))
    else None.
Proof.
  cbv zeta. rewrite main_body_session, main_body_comments. destruct (_ && _); [|done].
  by rewrite get_comments_table, posts_rows_no_limit.
Qed.

End MainProperties.

(** X20. With the toggle off, or when no post was found, the comments of
    no post are fetched: the whole outcome of the run is the same for
    two services that differ in their comments only; there is no
    comments table and the posts file is the one file written. *)
Theorem main_without_comment_fetch
    fromtimestamp service1 service2 posts_to_csv comments_to_csv cfg environ now fs :
  (∀ session, reddit_subreddit (service1 session) = reddit_subreddit (service2 session)) →
  (∀ session, subreddit_search (service1 session) = subreddit_search (service2 session)) →
  let run1 := main_body fromtimestamp service1 posts_to_csv comments_to_csv cfg environ now fs in
  let run2 := main_body fromtimestamp service2 posts_to_csv comments_to_csv cfg environ now fs in
  cfg_collect_comments cfg = false ∨ run_posts run1 = [] →
  run1 = run2
  ∧ run_comments run1 = None
  ∧ run_files run1
    = <[cfg_output_prefix cfg +:+ "_posts_" +:+ strftime now "%Y%m%d_%H%M%S" +:+ ".csv"
        := posts_to_csv (run_posts run1)]> fs.
Proof.
  intros Hsub Hsearch run1 run2. subst run1 run2.
  unfold main_body, __init__. cbn [self_reddit].
  rewrite (search_posts_ext fromtimestamp (service1 _) (service2 _)) by done.
  destruct (search_posts _ _ _ _ _ _ _ _ _) as [[|r0 df] out];
    destruct (cfg_collect_comments cfg);
    cbn [andb Nat.ltb Nat.leb length map];
    try destruct (get_comments _ (service1 _) _ _ _) as [cdf1 cout1];
    try destruct (get_comments _ (service2 _) _ _ _) as [cdf2 cout2];
    cbn [run_posts run_comments run_files];
    intros Hoff; try (destruct Hoff; discriminate);
    split_and!; reflexivity.
Qed.

(** X21. The window of [main] ends with the first instant of
    30 September 2025: every row of its posts table is dated from
    1 August 2025, 00:00:00, to 30 September 2025, 00:00:00, so a post
    of 30 September is kept only when its time of day is midnight sharp. *)
Theorem main_posts_window
    fromtimestamp service posts_to_csv comments_to_csv environ now fs r :
  r ∈ run_posts (main fromtimestamp service posts_to_csv comments_to_csv environ now fs) →
  let d := post.created_utc r in
  dt_lt d (mk_datetime 2025 8 1 0 0 0 0) = false
  ∧ dt_gt d (mk_datetime 2025 9 30 0 0 0 0) = false
  ∧ (year d = 2025 → month d = 9 → day d = 30 →
     0 ≤ hour d → 0 ≤ minute d → 0 ≤ second d → 0 ≤ microsecond d →
     hour d = 0 ∧ minute d = 0 ∧ second d = 0 ∧ microsecond d = 0).
Proof.
  unfold main. rewrite main_body_posts, search_posts_table.
  intros (c & k & s & _ & Hw & ->)%drop_duplicates_subset%collected_elem. simpl.
  unfold in_window in Hw. simpl in Hw.
  apply andb_true_iff in Hw as [Hs%negb_true_iff He%negb_true_iff].
  split_and!; [done|done|].
  set (d := fromtimestamp (submission.created_utc s)) in *.
  intros Hy Hm Hd Hh Hmi Hsec Hus.
  unfold dt_gt, dt_lt, timetuple in He. simpl in He. rewrite Hy, Hm, Hd in He. simpl in He.
  revert He Hh Hmi Hsec Hus.
  destruct (hour d) as [|?|?]; [|done|lia].
  destruct (minute d) as [|?|?]; [|done|lia].
  destruct (second d) as [|?|?]; [|done|lia].
  destruct (microsecond d) as [|?|?]; [done|done|lia].
Qed.

(** * The further properties on the sample service *)

Lemma search_posts_rows_from_search_witness :
  let r := post_of "alpha" "x" (sample_submission "p1" 1754006400)
             (fromtimestamp_1aug 1754006400) in
  post.subreddit r ∈ ["alpha"] ∧ post.search_keyword r ∈ ["x"; "y"].
Proof.
  intros r.
  destruct (search_posts_rows_from_search fromtimestamp_1aug sample_reddit ["x"; "y"]
              None None 100 "relevance" "all" ["alpha"] r) as (H1 & H2 & _).
  - apply list_elem_of_here.
  - by split.
Defined.

Lemma search_posts_total_unique_witness :
  last (snd (search_posts fromtimestamp_1aug sample_reddit ["alpha"] ["x"; "y"]
               None None 100 "relevance" "all"))
  = Some (TotalUnique 1)
  ∧ TotalUnique 0 ∉ snd (search_posts fromtimestamp_1aug sample_reddit ["ghost"] ["x"; "y"]
                           None None 100 "relevance" "all").
Proof.
  split.
  - pose proof (search_posts_total_unique fromtimestamp_1aug sample_reddit ["x"; "y"]
                  None None 100 "relevance" "all" ["alpha"]) as (_ & H & _).
    apply H. discriminate.
  - pose proof (search_posts_total_unique fromtimestamp_1aug sample_reddit ["x"; "y"]
                  None None 100 "relevance" "all" ["ghost"]) as (_ & _ & H).
    apply H. reflexivity.
Defined.

Lemma get_comments_negative_limit_witness :
  map comment_row.comment_id
      (fst (get_comments fromtimestamp_1aug sample_reddit ["p1"; "gone"; "p2"] false (Some (-1))))
  = ["c1"; "c4"].
Proof.
  rewrite (get_comments_negative_limit fromtimestamp_1aug sample_reddit false
             ["p1"; "gone"; "p2"] (-1)); [reflexivity|lia].
Defined.

Lemma get_comments_single_post_cap_witness :
  map comment_row.comment_id
      (fst (get_comments fromtimestamp_1aug sample_reddit ["p1"] false (Some 2)))
  = ["c1"; "c2"].
Proof.
  rewrite (get_comments_single_post_cap fromtimestamp_1aug sample_reddit false "p1" 2);
    [reflexivity|lia].
Defined.

Lemma get_comments_cap_not_reached_witness :
  fst (get_comments fromtimestamp_1aug sample_reddit ["p1"; "p2"] false (Some 5))
  = fst (get_comments fromtimestamp_1aug sample_reddit ["p1"; "p2"] false None).
Proof.
  apply (get_comments_cap_not_reached fromtimestamp_1aug sample_reddit false ["p1"; "p2"] 5).
  vm_compute. reflexivity.
Defined.

Lemma get_comments_cap_bound_witness :
  Z.of_nat (length (fst (get_comments fromtimestamp_1aug sample_reddit
                           ("p1" :: ["p2"; "p2"]) true (Some 2))))
  ≤ 2 + Z.of_nat (length ["p2"; "p2"]).
Proof.
  apply (get_comments_cap_bound fromtimestamp_1aug sample_reddit "p1" ["p2"; "p2"] true 2).
  lia.
Defined.

Lemma get_comments_rows_from_fetch_witness :
  let r := comment_row_of fromtimestamp_1aug "p2" (sample_comment "c4") in
  comment_row.post_id r ∈ ["p1"; "p2"].
Proof.
  intros r.
  destruct (get_comments_rows_from_fetch fromtimestamp_1aug sample_reddit true
              ["p1"; "p2"] (Some 2) r) as [H _]; [|exact H].
  apply list_elem_of_further, list_elem_of_further, list_elem_of_here.
Defined.

Lemma get_comments_top_level_in_flattened_witness :
  comment_row_of fromtimestamp_1aug "p1" (sample_comment "c2")
  ∈ fst (get_comments fromtimestamp_1aug sample_reddit ["p1"] false None).
Proof.
  apply get_comments_top_level_in_flattened.
  apply list_elem_of_further, list_elem_of_here.
Defined.

Lemma strftime_round_trip_witness :
  timestamp_fields (strftime (mk_datetime 2025 9 30 14 5 9 123) "%Y%m%d_%H%M%S" +:+ ".csv")
  = [2025; 9; 30; 14; 5; 9].
Proof.
  apply (strftime_round_trip (mk_datetime 2025 9 30 14 5 9 123) ".csv").
  unfold valid_now. simpl. lia.
Defined.

Lemma save_data_name_per_second_witness :
  [2025; 9; 30; 14; 5; 9] = [2025; 9; 30; 14; 5; 9].
Proof.
  apply (save_data_name_per_second (λ _, "post_id") (λ _, "comment_id")
           (mk_datetime 2025 9 30 14 5 9 0) (mk_datetime 2025 9 30 14 5 9 999)
           ∅ ∅ [] [] None None "sample").
  - unfold valid_now. simpl. lia.
  - unfold valid_now. simpl. lia.
  - reflexivity.
Defined.

Lemma save_data_other_files_witness :
  files (save_data (λ _, "post_id") (λ _, "comment_id") (mk_datetime 2025 9 30 14 5 9 0)
           {[ "notes.txt" := "kept" ]} [] None "sample")
  !! "notes.txt"
  = Some "kept".
Proof.
  pose proof (save_data_other_files (λ _, "post_id") (λ _, "comment_id")
                (mk_datetime 2025 9 30 14 5 9 0) {[ "notes.txt" := "kept" ]} [] None
                "sample" "notes.txt") as [H _].
  cbv zeta in H. rewrite H; [reflexivity|discriminate|discriminate].
Defined.

Lemma main_comments_name_posts_witness :
  "p1" ∈ map post.post_id
           (run_posts (main_body fromtimestamp_1aug sample_service (λ _, "post_id")
                         (λ _, "comment_id") sample_study ∅
                         (mk_datetime 2025 9 30 14 5 9 0) ∅)).
Proof.
  eapply (main_comments_name_posts fromtimestamp_1aug sample_service (λ _, "post_id")
            (λ _, "comment_id") sample_study ∅ (mk_datetime 2025 9 30 14 5 9 0) ∅ _
            (comment_row_of fromtimestamp_1aug "p1" (sample_comment "c1"))).
  - reflexivity.
  - apply list_elem_of_here.
Defined.

Lemma main_without_comment_fetch_witness :
  main_body fromtimestamp_1aug sample_service (λ _, "post_id") (λ _, "comment_id")
    STUDY_CONFIG ∅ (mk_datetime 2025 9 30 14 5 9 0) ∅
  = main_body fromtimestamp_1aug sample_service_no_comments (λ _, "post_id") (λ _, "comment_id")
      STUDY_CONFIG ∅ (mk_datetime 2025 9 30 14 5 9 0) ∅.
Proof.
  apply (main_without_comment_fetch fromtimestamp_1aug sample_service
           sample_service_no_comments).
  - reflexivity.
  - reflexivity.
  - right. reflexivity.
Defined.

Lemma main_posts_window_witness :
  let d := fromtimestamp_30sep 1759190400 in
  hour d = 0 ∧ minute d = 0 ∧ second d = 0 ∧ microsecond d = 0.
Proof.
  intros d.
  pose proof (main_posts_window fromtimestamp_30sep study_service (λ _, "post_id")
                (λ _, "comment_id") ∅ (mk_datetime 2025 10 1 9 0 0 0) ∅
                (post_of "Replika" "AI partner" (sample_submission "p1" 1759190400) d)) as H.
  cbv zeta in H. destruct H as (_ & _ & H).
  - apply list_elem_of_here.
  - apply H; [reflexivity|reflexivity|reflexivity|done|done|done|done].
Defined.
